(** * The agent turn loop of Learn-Claude-Code (Go), embedded in Rocq

    Sources embedded here:
    - [agents/s01_agent_loop/main.go]: the interactive variant
      ([agentLoop], [runBash], [runBashIn], [bashToolDef], [dangerousPatterns]);
    - [pkg/loop/agent.go]: the registry based loop ([Run]);
    - package [tools]: [Registry], [New], [Register], [Definitions], [Dispatch];
    - the registry based [main] package: [bashHandler], [bashToolDef];
    - [agents/s01_agent_loop/main_test.go]: the test doubles
      ([mockLLMClient], [errorLLMClient], [makeTextResponse],
      [makeToolCallResponse]).

    Go strings are byte sequences: they are modelled by [string] (a list of
    8-bit [ascii]).  Go's [int] lengths are modelled in [Z].  The effects of
    the program (the chat-completion endpoint, subprocesses, the two output
    streams) are threaded through an explicit [World] in a small state
    monad; the unbounded [for] loops take fuel. *)

From Stdlib Require Import ZArith Lia Ascii.
From stdpp Require Import base option list strings pretty gmap.

Set Warnings "-register-all,-abstract-large-number".

Local Open Scope Z_scope.

(** ** Go strings *)

Module GoStrings.

(** [len(s)]: the number of bytes. *)
Definition len (s : string) : Z := Z.of_nat (String.length s).

(** [s[:n]].  Go panics when [n > len(s)]; every use in the sources is
    guarded by [len(s) > n]. *)
Definition slice_to (s : string) (n : Z) : string :=
  String.substring 0 (Z.to_nat n) s.

(** [strings.HasPrefix(s, prefix)]. *)
Fixpoint HasPrefix (s prefix : string) : bool :=
  match prefix, s with
  | EmptyString, _ => true
  | String a prefix', String b s' => Ascii.eqb a b && HasPrefix s' prefix'
  | String _ _, EmptyString => false
  end.

(** [strings.Contains(s, substr)]: [substr] occurs somewhere in [s]. *)
Fixpoint Contains (s substr : string) : bool :=
  HasPrefix s substr ||
  match s with
  | EmptyString => false
  | String _ s' => Contains s' substr
  end.

(** The six ASCII characters of [strings.TrimSpace]'s fast path:
    tab, line feed, vertical tab, form feed, carriage return, space. *)
Definition asciiSpace (c : ascii) : bool :=
  match c with
  | "009"%char | "010"%char | "011"%char | "012"%char | "013"%char
  | " "%char => true
  | _ => false
  end.

Fixpoint trimLeftAscii (s : string) : string :=
  match s with
  | String c s' => if asciiSpace c then trimLeftAscii s' else s
  | EmptyString => EmptyString
  end.

Fixpoint trimRightAscii (s : string) : string :=
  match s with
  | EmptyString => EmptyString
  | String c s' =>
      match trimRightAscii s' with
      | EmptyString => if asciiSpace c then EmptyString else String c EmptyString
      | t => String c t
      end
  end.

(** [strings.TrimSpace] restricted to ASCII text, where only the six
    characters above are white space.  (On other text Go also strips the
    Unicode white space code points; the development is parametric in
    the trimming function and uses this one on ASCII inputs only.) *)
Definition TrimSpaceAscii (s : string) : string :=
  trimRightAscii (trimLeftAscii s).

(** The string of [n] copies of the byte [c]. *)
Fixpoint Repeat (c : ascii) (n : nat) : string :=
  match n with
  | O => EmptyString
  | S n' => String c (Repeat c n')
  end.

End GoStrings.

Import GoStrings.

(** ** Decoded JSON values: Go's [any] as produced by [encoding/json] *)

Inductive any : Type :=
| AnyNil
| AnyBool (b : bool)
| AnyNumber (literal : string)
| AnyString (s : string)
| AnyArray (elems : list any)
| AnyObject (members : list (string * any)).

(** The type assertion [v.(string)] on the result of a map lookup, in its
    two-valued form [s, ok := m[k].(string)]. *)
Definition assert_string (v : option any) : string * bool :=
  match v with
  | Some (AnyString s) => (s, true)
  | _ => (EmptyString, false)
  end.

(** Go's [error] values are observed through their [Error()] text only. *)
Abbreviation error := string (only parsing).

(** ** The chat-completion data model (package [openai]) *)

Inductive Role : Type := system | user | assistant | tool.

#[global] Instance Role_eq_dec : EqDecision Role.
Proof. solve_decision. Defined.

(** A requested tool call: [{id, type: "function", function: {name, arguments}}]. *)
Record ToolCall : Type := {
  tc_ID : string;
  tc_Name : string;
  tc_Arguments : string
}.

(** One entry of the conversation ([ChatCompletionMessageParamUnion]). *)
Record Message : Type := {
  role : Role;
  content : string;
  tool_calls : list ToolCall;
  tool_call_id : string
}.

Definition SystemMessage (text : string) : Message :=
  {| role := system; content := text; tool_calls := []; tool_call_id := "" |}.

Definition UserMessage (text : string) : Message :=
  {| role := user; content := text; tool_calls := []; tool_call_id := "" |}.

Definition ToolMessage (text toolCallID : string) : Message :=
  {| role := tool; content := text; tool_calls := []; tool_call_id := toolCallID |}.

(** The message of a completion choice, as the endpoint sends it. *)
Record ChatCompletionMessage : Type := {
  cm_Role : string;
  cm_Content : string;
  cm_ToolCalls : list ToolCall
}.

(** [ChatCompletionMessage.ToParam]: always an assistant message, whatever
    the [Role] text of the response says. *)
Definition ToParam (m : ChatCompletionMessage) : Message :=
  {| role := assistant; content := cm_Content m;
     tool_calls := cm_ToolCalls m; tool_call_id := "" |}.

Record ChatCompletionChoice : Type := {
  FinishReason : string;
  ch_Message : ChatCompletionMessage
}.

Record ChatCompletion : Type := {
  Choices : list ChatCompletionChoice
}.

(** A tool definition: [{type: "function", function: {name, description, parameters}}]. *)
Record ChatCompletionToolParam : Type := {
  fn_Name : string;
  fn_Description : string;
  fn_Parameters : any
}.

Record ChatCompletionNewParams : Type := {
  Messages : list Message;
  Tools : list ChatCompletionToolParam
}.

(** The interface [LLMClient]: one blocking operation, on a client that
    may keep state between calls (the mock counts its calls). *)
Class LLMClient (L : Type) : Type :=
  Complete : L → ChatCompletionNewParams → L * (ChatCompletion + error).

(** ** The runtime the program runs on

    What the sources call in Go's standard library and the operating
    system is taken as a parameter: the theorems hold whatever these do.
    - [CombinedOutput script dir] is
      [exec.Command("bash", "-c", script)] with [cmd.Dir = dir] followed by
      [cmd.CombinedOutput()]: it transforms the operating system state and
      yields the captured bytes with the process error, if any (for a
      non-zero exit, the text [exit status N]); an empty [dir] is the
      current directory of the process;
    - [Getwd] is [os.Getwd];
    - [TrimSpace] is [strings.TrimSpace];
    - [Unmarshal] is [json.Unmarshal] with a [*map[string]any] target:
      the decoded map, or the error. *)
Class Runtime : Type := {
  OS : Type;
  CombinedOutput : string → string → OS → OS * (string * option error);
  Getwd : OS → string;
  TrimSpace : string → string;
  Unmarshal : string → gmap string any + error
}.

(** What an observer of the process sees, in order of occurrence. *)
Inductive Event : Type :=
| EvComplete (params : ChatCompletionNewParams)
| EvSpawn (script dir : string)
| EvStdout (text : string)
| EvStderr (text : string).

Definition is_complete (e : Event) : bool :=
  match e with EvComplete _ => true | _ => false end.

(** How a call of a looping function ends: it returns, it panics, or the
    fuel of the model is used up. *)
Inductive Outcome (A : Type) : Type :=
| Returned (a : A)
| Panicked (reason : string)
| OutOfFuel.
Arguments Returned {A} a.
Arguments Panicked {A} reason.
Arguments OutOfFuel {A}.

(** How one pass through the body of a [for] loop ends: at the bottom
    ([Continue], with the history so far) or by leaving the function. *)
Inductive Step (A : Type) : Type :=
| Continue (messages : list Message)
| Break (o : Outcome A).
Arguments Continue {A} messages.
Arguments Break {A} o.

(** ANSI colour codes. *)
Definition colorCyan : string := String "027" "[36m".
Definition colorYellow : string := String "027" "[33m".
Definition colorReset : string := String "027" "[0m".

Definition newline : string := String "010" EmptyString.

Section Program.

Context {RT : Runtime} {L : Type} {LC : LLMClient L}.

Record World : Type := {
  w_os : OS;
  w_llm : L;
  w_trace : list Event
}.

(** The state monad of the program. *)
Definition IO (A : Type) : Type := World → World * A.

#[export] Instance IO_ret : MRet IO := λ A a w, (w, a).
#[export] Instance IO_bind : MBind IO :=
  λ A B k m w, let '(w', a) := m w in k a w'.

Definition emit (e : Event) : IO unit :=
  λ w, ({| w_os := w_os w; w_llm := w_llm w; w_trace := w_trace w ++ [e] |}, tt).

(** [llm.Complete(ctx, params)]. *)
Definition complete (params : ChatCompletionNewParams)
  : IO (ChatCompletion + error) :=
  λ w, let '(l', r) := Complete (w_llm w) params in
       ({| w_os := w_os w; w_llm := l';
           w_trace := w_trace w ++ [EvComplete params] |}, r).

(** The world after that call. *)
Definition completed (params : ChatCompletionNewParams) (w : World) : World :=
  {| w_os := w_os w;
     w_llm := (Complete (w_llm w) params).1;
     w_trace := w_trace w ++ [EvComplete params] |}.

(** [exec.Command("bash", "-c", script)], [cmd.Dir = dir],
    [cmd.CombinedOutput()]. *)
Definition spawn (script dir : string) : IO (string * option error) :=
  λ w, let '(os', r) := CombinedOutput script dir (w_os w) in
       ({| w_os := os'; w_llm := w_llm w;
           w_trace := w_trace w ++ [EvSpawn script dir] |}, r).

(** The world after that subprocess. *)
Definition spawned (script dir : string) (w : World) : World :=
  {| w_os := (CombinedOutput script dir (w_os w)).1;
     w_llm := w_llm w;
     w_trace := w_trace w ++ [EvSpawn script dir] |}.

Definition getwd : IO string := λ w, (w, Getwd (w_os w)).

Definition Printf (text : string) : IO unit := emit (EvStdout text).
Definition Println (text : string) : IO unit := emit (EvStdout (text +:+ newline)).
Definition Fprintln_Stderr (text : string) : IO unit :=
  emit (EvStderr (text +:+ newline)).

(** *** Package [tools] *)

Definition Handler : Type := gmap string any → IO (string * option error).

Record Registry : Type := {
  definitions : list ChatCompletionToolParam;
  handlers : gmap string Handler
}.

Definition New : Registry := {| definitions := []; handlers := ∅ |}.

Definition Register (r : Registry) (def : ChatCompletionToolParam)
    (handler : Handler) : Registry :=
  {| definitions := definitions r ++ [def];
     handlers := <[fn_Name def := handler]> (handlers r) |}.

Definition Definitions (r : Registry) : list ChatCompletionToolParam :=
  definitions r.

(** A series of calls of [Register], first to last. *)
Definition RegisterAll (r : Registry)
    (tools : list (ChatCompletionToolParam * Handler)) : Registry :=
  foldl (λ r p, Register r p.1 p.2) r tools.

Definition Dispatch (r : Registry) (name : string) (args : gmap string any)
  : IO (string * option error) :=
  match handlers r !! name with
  | None => mret (EmptyString, Some ("unknown tool: " +:+ name))
  | Some handler => handler args
  end.

End Program.

Arguments World {RT} L.
Arguments IO {RT} L A.
Arguments Handler {RT} L.
Arguments Registry {RT} L.

(** ** The interactive variant: [agents/s01_agent_loop/main.go] *)

Module s01.
Section s01.

Context {RT : Runtime} {L : Type} {LC : LLMClient L}.

Definition dangerousPatterns : list string :=
  ["rm -rf /"; "sudo"; "shutdown"; "reboot"; "> /dev/"].

Definition bashToolDef : ChatCompletionToolParam :=
  {| fn_Name := "bash";
     fn_Description := "Run a shell command.";
     fn_Parameters :=
       AnyObject
         [("type", AnyString "object");
          ("properties",
            AnyObject [("command", AnyObject [("type", AnyString "string")])]);
          ("required", AnyArray [AnyString "command"])] |}.

(** The directory [runBashIn] runs the process in. *)
Definition cmdDir_of (dir : string) (w : World L) : string :=
  if negb (dir =? "")%string then dir else Getwd (w_os w).

(** [runBashIn]: the safety gate, then the shell executor. *)
Definition runBashIn (command dir : string) : IO L string :=
  if existsb (Contains command) dangerousPatterns
  then mret "Error: Dangerous command blocked"
  else
    cmdDir ← (if negb (dir =? "")%string then mret dir else getwd);
    '(out, err) ← spawn command cmdDir;
    let result := TrimSpace out in
    let result :=
      match err with
      | Some e => if (result =? "")%string then "Error: " +:+ e else result
      | None => result
      end in
    let result := if (result =? "")%string then "(no output)" else result in
    let result :=
      if (50000 <? len result)%Z then slice_to result 50000 else result in
    mret result.

Definition runBash (command : string) : IO L string := runBashIn command "".

(** The body of [for _, tc := range choice.Message.ToolCalls]. *)
Fixpoint runToolCalls (cwd : string) (toolCalls : list ToolCall)
    (messages : list Message) : IO L (list Message) :=
  match toolCalls with
  | [] => mret messages
  | tc :: rest =>
      match Unmarshal (tc_Arguments tc) with
      | inr err =>
          runToolCalls cwd rest
            (messages ++ [ToolMessage ("error: " +:+ err) (tc_ID tc)])
      | inl args =>
          let '(command, _) := assert_string (args !! "command") in
          _ ← Printf (colorYellow +:+ "$ " +:+ command +:+ colorReset +:+ newline);
          output ← runBashIn command cwd;
          let preview :=
            if (200 <? len output)%Z then slice_to output 200 else output in
          _ ← Println preview;
          runToolCalls cwd rest (messages ++ [ToolMessage output (tc_ID tc)])
      end
  end.

(** The request of one turn: the system prompt comes first. *)
Definition params_of (system : string) (messages : list Message)
  : ChatCompletionNewParams :=
  let fullMessages := SystemMessage system :: messages in
  {| Messages := fullMessages; Tools := [bashToolDef] |}.

(** One pass through the body of the outer [for] of [agentLoop]. *)
Definition agentLoop_body (system cwd : string) (messages : list Message)
  : IO L (Step (list Message)) :=
  r ← complete (params_of system messages);
  match r with
  | inr err =>
      _ ← Fprintln_Stderr ("API error: " +:+ err);
      mret (Break (Returned messages))
  | inl resp =>
      match Choices resp with
      | [] => mret (Break (Panicked "index out of range [0] with length 0"))
      | choice :: _ =>
          let messages := messages ++ [ToParam (ch_Message choice)] in
          if negb (FinishReason choice =? "tool_calls")%string
          then mret (Break (Returned messages))
          else
            messages ← runToolCalls cwd (cm_ToolCalls (ch_Message choice)) messages;
            mret (Continue messages)
      end
  end.

Fixpoint agentLoop_from (fuel : nat) (system cwd : string)
    (messages : list Message) : IO L (Outcome (list Message)) :=
  match fuel with
  | O => mret OutOfFuel
  | S fuel' =>
      s ← agentLoop_body system cwd messages;
      match s with
      | Continue messages' => agentLoop_from fuel' system cwd messages'
      | Break o => mret o
      end
  end.

(** [agentLoop(llm, system, messages, workDir...)]; the client [llm] is
    the one of the world. *)
Definition agentLoop (fuel : nat) (system : string) (messages : list Message)
    (workDir : list string) : IO L (Outcome (list Message)) :=
  let cwd :=
    match workDir with
    | d :: _ => if negb (d =? "")%string then d else ""
    | [] => ""
    end in
  agentLoop_from fuel system cwd messages.

End s01.
End s01.

(** ** The registry based loop: [pkg/loop/agent.go] *)

Module loop.
Section loop.

Context {RT : Runtime} {L : Type} {LC : LLMClient L}.

(** The body of [for _, tc := range choice.Message.ToolCalls]; the
    second component is the error of an early [return]. *)
Fixpoint runToolCalls (registry : Registry L) (toolCalls : list ToolCall)
    (messages : list Message) : IO L (list Message * option error) :=
  match toolCalls with
  | [] => mret (messages, None)
  | tc :: rest =>
      match Unmarshal (tc_Arguments tc) with
      | inr err =>
          mret (messages,
                Some ("failed to parse tool args for " +:+ tc_Name tc
                      +:+ ": " +:+ err))
      | inl args =>
          '(output, err) ← Dispatch registry (tc_Name tc) args;
          let output :=
            match err with
            | Some e => "error: " +:+ e
            | None => output
            end in
          runToolCalls registry rest (messages ++ [ToolMessage output (tc_ID tc)])
      end
  end.

(** The request of one turn. *)
Definition params_of (messages : list Message) (registry : Registry L)
  : ChatCompletionNewParams :=
  {| Messages := messages; Tools := Definitions registry |}.

(** One pass through the body of the outer [for] of [Run]. *)
Definition Run_body (messages : list Message) (registry : Registry L)
  : IO L (Step (list Message * option error)) :=
  r ← complete (params_of messages registry);
  match r with
  | inr err =>
      mret (Break (Returned (messages, Some ("API call failed: " +:+ err))))
  | inl resp =>
      match Choices resp with
      | [] => mret (Break (Panicked "index out of range [0] with length 0"))
      | choice :: _ =>
          let messages := messages ++ [ToParam (ch_Message choice)] in
          if negb (FinishReason choice =? "tool_calls")%string
          then mret (Break (Returned (messages, None)))
          else
            '(messages, err) ←
              runToolCalls registry (cm_ToolCalls (ch_Message choice)) messages;
            match err with
            | Some e => mret (Break (Returned (messages, Some e)))
            | None => mret (Continue messages)
            end
      end
  end.

(** [Run(ctx, client, model, messages, registry)]; the client is the one
    of the world. *)
Fixpoint Run (fuel : nat) (messages : list Message) (registry : Registry L)
  : IO L (Outcome (list Message * option error)) :=
  match fuel with
  | O => mret OutOfFuel
  | S fuel' =>
      s ← Run_body messages registry;
      match s with
      | Continue messages' => Run fuel' messages' registry
      | Break o => mret o
      end
  end.

End loop.
End loop.

(** ** The registry based [main] package: the [bash] tool *)

Module registry_main.
Section registry_main.

Context {RT : Runtime} {L : Type} {LC : LLMClient L}.

Definition bashToolDef : ChatCompletionToolParam :=
  {| fn_Name := "bash";
     fn_Description := "Execute a bash command and return its output.";
     fn_Parameters :=
       AnyObject
         [("type", AnyString "object");
          ("properties",
            AnyObject
              [("command",
                 AnyObject [("type", AnyString "string");
                            ("description", AnyString "The bash command to execute.")])]);
          ("required", AnyArray [AnyString "command"])] |}.

Definition bashHandler (args : gmap string any) : IO L (string * option error) :=
  let '(command, ok) := assert_string (args !! "command") in
  if negb ok then mret (EmptyString, Some "command must be a string")
  else
    '(out, err) ← spawn command "";
    match err with
    | Some e => mret ("exit error: " +:+ e +:+ newline +:+ out, None)
    | None =>
        let result := out in
        let result :=
          if (4000 <? len result)%Z
          then slice_to result 4000 +:+ newline +:+ "...(truncated)"
          else result in
        mret (result, None)
    end.

(** The registry that [main] builds. *)
Definition registry : Registry L := Register New bashToolDef bashHandler.

End registry_main.
End registry_main.

(** ** A reader for JSON texts

    An executable stand-in for [encoding/json], used to run the program on
    concrete inputs: it follows the JSON grammar (RFC 8259) and decodes a
    text into [any] the way [json.Unmarshal] does for an [any] target.
    The wording of syntax errors and the replacement of ill-formed UTF-8
    inside string literals are not reproduced; no theorem below that
    quantifies over the [Runtime] depends on this reader. *)

Module json.

Definition quote : ascii := "034"%char.
Definition backslash : ascii := "092"%char.

Definition is_ws (c : ascii) : bool :=
  match c with
  | " "%char | "009"%char | "010"%char | "013"%char => true
  | _ => false
  end.

Fixpoint skip_ws (s : string) : string :=
  match s with
  | String c s' => if is_ws c then skip_ws s' else s
  | EmptyString => EmptyString
  end.

Definition is_digit (c : ascii) : bool :=
  let n := N_of_ascii c in ((48 <=? n) && (n <=? 57))%N.

(** The longest prefix of digits, and what follows it. *)
Fixpoint digits (s : string) : string * string :=
  match s with
  | String c s' =>
      if is_digit c then let '(ds, r) := digits s' in (String c ds, r)
      else (EmptyString, s)
  | EmptyString => (EmptyString, EmptyString)
  end.

Definition digits1 (s : string) : option (string * string) :=
  match digits s with
  | (EmptyString, _) => None
  | (ds, r) => Some (ds, r)
  end.

(** A number literal: an optional minus sign; the integer part, a
    single zero or a non-empty run of digits; an optional fraction, a
    dot and at least one digit; an optional exponent, e or E, an
    optional sign and at least one digit. *)
Definition scan_number (s : string) : option (string * string) :=
  let '(sign, s) :=
    match s with
    | String "-"%char r => ("-", r)
    | _ => (EmptyString, s)
    end in
  '(int, s) ←
    match s with
    | String "0"%char r => Some ("0", r)
    | _ => digits1 s
    end;
  '(frac, s) ←
    match s with
    | String "."%char r => '(ds, r') ← digits1 r; Some ("." +:+ ds, r')
    | _ => Some (EmptyString, s)
    end;
  '(exp, s) ←
    match s with
    | String c r =>
        if (Ascii.eqb c "e" || Ascii.eqb c "E")%bool then
          let '(esign, r) :=
            match r with
            | String "+"%char r' => ("+", r')
            | String "-"%char r' => ("-", r')
            | _ => (EmptyString, r)
            end in
          '(ds, r') ← digits1 r;
          Some (String c esign +:+ ds, r')
        else Some (EmptyString, s)
    | EmptyString => Some (EmptyString, s)
    end;
  Some (sign +:+ int +:+ frac +:+ exp, s).

Definition hex_digit (c : ascii) : option N :=
  let n := N_of_ascii c in
  if ((48 <=? n) && (n <=? 57))%N then Some (n - 48)%N
  else if ((65 <=? n) && (n <=? 70))%N then Some (n - 55)%N
  else if ((97 <=? n) && (n <=? 102))%N then Some (n - 87)%N
  else None.

(** [getu4]: the code unit of four hexadecimal digits. *)
Definition getu4 (a b c d : ascii) : option N :=
  x ← hex_digit a; y ← hex_digit b; z ← hex_digit c; t ← hex_digit d;
  Some (((x * 16 + y) * 16 + z) * 16 + t)%N.

Definition byte (n : N) : ascii := ascii_of_N n.

(** [utf8.EncodeRune] for a code point that is not a surrogate. *)
Definition EncodeRune (cp : N) : string :=
  (if cp <? 128 then String (byte cp) EmptyString
   else if cp <? 2048 then
     String (byte (192 + cp / 64)) (String (byte (128 + cp mod 64)) EmptyString)
   else if cp <? 65536 then
     String (byte (224 + cp / 4096))
       (String (byte (128 + (cp / 64) mod 64))
          (String (byte (128 + cp mod 64)) EmptyString))
   else
     String (byte (240 + cp / 262144))
       (String (byte (128 + (cp / 4096) mod 64))
          (String (byte (128 + (cp / 64) mod 64))
             (String (byte (128 + cp mod 64)) EmptyString))))%N.

Definition ReplacementChar : N := 65533.

Definition is_high_surrogate (u : N) : bool := ((55296 <=? u) && (u <? 56320))%N.
Definition is_low_surrogate (u : N) : bool := ((56320 <=? u) && (u <? 57344))%N.

(** The body of a string literal, after its opening quote: the decoded
    bytes and what follows the closing quote. *)
Fixpoint scan_string (s : string) : option (string * string) :=
  match s with
  | EmptyString => None
  | String c r =>
      if Ascii.eqb c quote then Some (EmptyString, r)
      else if Ascii.eqb c backslash then
        match r with
        | String "u"%char (String h1 (String h2 (String h3 (String h4 r1)))) =>
            u ← getu4 h1 h2 h3 h4;
            if is_high_surrogate u then
              match r1 with
              | String "092"%char (String "u"%char
                  (String k1 (String k2 (String k3 (String k4 r2))))) =>
                  match getu4 k1 k2 k3 k4 with
                  | Some v =>
                      if is_low_surrogate v then
                        '(t, rest) ← scan_string r2;
                        Some (EncodeRune
                                (65536 + (u - 55296) * 1024 + (v - 56320))%N
                              +:+ t, rest)
                      else
                        '(t, rest) ← scan_string r1;
                        Some (EncodeRune ReplacementChar +:+ t, rest)
                  | None =>
                      '(t, rest) ← scan_string r1;
                      Some (EncodeRune ReplacementChar +:+ t, rest)
                  end
              | _ =>
                  '(t, rest) ← scan_string r1;
                  Some (EncodeRune ReplacementChar +:+ t, rest)
              end
            else if is_low_surrogate u then
              '(t, rest) ← scan_string r1;
              Some (EncodeRune ReplacementChar +:+ t, rest)
            else
              '(t, rest) ← scan_string r1;
              Some (EncodeRune u +:+ t, rest)
        | String e r1 =>
            d ← match e with
                | "034"%char => Some quote
                | "092"%char => Some backslash
                | "/"%char => Some "/"%char
                | "b"%char => Some "008"%char
                | "f"%char => Some "012"%char
                | "n"%char => Some "010"%char
                | "r"%char => Some "013"%char
                | "t"%char => Some "009"%char
                | _ => None
                end;
            '(t, rest) ← scan_string r1;
            Some (String d t, rest)
        | EmptyString => None
        end
      else if (N_of_ascii c <? 32)%N then None
      else '(t, rest) ← scan_string r; Some (String c t, rest)
  end.

Section values.

(** The reader of one value, one nesting level down. *)
Variable value : string → option (any * string).

(** The elements of a non-empty array, from the first byte of an
    element to the closing bracket. *)
Fixpoint parse_elements (n : nat) (s : string) : option (list any * string) :=
  match n with
  | O => None
  | S n' =>
      '(v, r) ← value s;
      match skip_ws r with
      | String ","%char r' =>
          '(vs, r'') ← parse_elements n' r'; Some (v :: vs, r'')
      | String "]"%char r' => Some ([v], r')
      | _ => None
      end
  end.

(** The members of a non-empty object, from the first key to the
    closing brace. *)
Fixpoint parse_members (n : nat) (s : string)
  : option (list (string * any) * string) :=
  match n with
  | O => None
  | S n' =>
      match skip_ws s with
      | String "034"%char r =>
          '(k, r) ← scan_string r;
          match skip_ws r with
          | String ":"%char r =>
              '(v, r) ← value r;
              match skip_ws r with
              | String ","%char r' =>
                  '(kvs, r'') ← parse_members n' r'; Some ((k, v) :: kvs, r'')
              | String "}"%char r' => Some ([(k, v)], r')
              | _ => None
              end
          | _ => None
          end
      | _ => None
      end
  end.

End values.

Definition literal (word : string) (v : any) (s : string) : option (any * string) :=
  if HasPrefix s word
  then Some (v, String.substring (String.length word) (String.length s) s)
  else None.

Fixpoint parse_value (fuel : nat) (s : string) : option (any * string) :=
  match fuel with
  | O => None
  | S fuel' =>
      match skip_ws s with
      | EmptyString => None
      | String c r =>
          match c with
          | "{"%char =>
              match skip_ws r with
              | String "}"%char r' => Some (AnyObject [], r')
              | _ =>
                  '(kvs, r') ← parse_members (parse_value fuel') (String.length r) r;
                  Some (AnyObject kvs, r')
              end
          | "["%char =>
              match skip_ws r with
              | String "]"%char r' => Some (AnyArray [], r')
              | _ =>
                  '(vs, r') ← parse_elements (parse_value fuel') (String.length r) r;
                  Some (AnyArray vs, r')
              end
          | "034"%char => '(t, r') ← scan_string r; Some (AnyString t, r')
          | "t"%char => literal "true" (AnyBool true) (String c r)
          | "f"%char => literal "false" (AnyBool false) (String c r)
          | "n"%char => literal "null" AnyNil (String c r)
          | _ => '(lit, r') ← scan_number (String c r); Some (AnyNumber lit, r')
          end
      end
  end.

(** One JSON value, surrounded by optional white space, and nothing else. *)
Definition decode (s : string) : option any :=
  '(v, r) ← parse_value (S (String.length s)) s;
  match skip_ws r with
  | EmptyString => Some v
  | _ => None
  end.

(** [json.Valid]. *)
Definition Valid (s : string) : bool := bool_decide (is_Some (decode s)).

Definition cannot_unmarshal (kind : string) : error :=
  "json: cannot unmarshal " +:+ kind
  +:+ " into Go value of type map[string]interface {}".

(** [json.Unmarshal(data, &args)] for [var args map[string]any]:
    [null] leaves the nil map, an object fills the map (a repeated key
    keeps its last value), any other value is a type error. *)
Definition Unmarshal (s : string) : gmap string any + error :=
  match decode s with
  | None => inr "invalid JSON text"
  | Some AnyNil => inl ∅
  | Some (AnyObject members) => inl (list_to_map (reverse members))
  | Some (AnyBool _) => inr (cannot_unmarshal "bool")
  | Some (AnyNumber _) => inr (cannot_unmarshal "number")
  | Some (AnyString _) => inr (cannot_unmarshal "string")
  | Some (AnyArray _) => inr (cannot_unmarshal "array")
  end.

End json.

(** ** Test doubles: [agents/s01_agent_loop/main_test.go] *)

Module testing.

(** [mockLLMClient]: the prepared responses in order, then an error. *)
Record mockLLMClient : Type := {
  responses : list ChatCompletion;
  calls : nat
}.

#[export] Instance mock_Complete : LLMClient mockLLMClient :=
  λ m _,
    match responses m !! calls m with
    | None =>
        (m, inr ("mockLLMClient: no more responses (call #"
                 +:+ pretty (calls m) +:+ ")"))
    | Some resp =>
        ({| responses := responses m; calls := S (calls m) |}, inl resp)
    end.

(** [errorLLMClient]: every call fails. *)
Inductive errorLLMClient : Type := ErrorLLMClient.

#[export] Instance error_Complete : LLMClient errorLLMClient :=
  λ e _, (e, inr "simulated API error").

Definition makeTextResponse (text : string) : ChatCompletion :=
  {| Choices :=
       [{| FinishReason := "stop";
           ch_Message := {| cm_Role := "assistant"; cm_Content := text;
                            cm_ToolCalls := [] |} |}] |}.

(** The verb [%q] on text made of printable ASCII, line feeds, carriage
    returns and tabs. *)
Fixpoint Quote_body (s : string) : string :=
  match s with
  | EmptyString => EmptyString
  | String c s' =>
      match c with
      | "034"%char => String json.backslash (String json.quote (Quote_body s'))
      | "092"%char => String json.backslash (String json.backslash (Quote_body s'))
      | "010"%char => String json.backslash (String "n" (Quote_body s'))
      | "013"%char => String json.backslash (String "r" (Quote_body s'))
      | "009"%char => String json.backslash (String "t" (Quote_body s'))
      | _ => String c (Quote_body s')
      end
  end.

Definition Quote (s : string) : string :=
  String json.quote (Quote_body s +:+ String json.quote EmptyString).

Definition makeToolCallResponse (toolCallID command : string) : ChatCompletion :=
  {| Choices :=
       [{| FinishReason := "tool_calls";
           ch_Message :=
             {| cm_Role := "assistant"; cm_Content := "";
                cm_ToolCalls :=
                  [{| tc_ID := toolCallID; tc_Name := "bash";
                      tc_Arguments :=
                        "{" +:+ Quote "command" +:+ ":" +:+ Quote command +:+ "}" |}]
             |} |}] |}.

(** A response that requests the given tool calls. *)
Definition makeToolCallsResponse (toolCalls : list ToolCall) : ChatCompletion :=
  {| Choices :=
       [{| FinishReason := "tool_calls";
           ch_Message := {| cm_Role := "assistant"; cm_Content := "";
                            cm_ToolCalls := toolCalls |} |}] |}.

(** A host for running the program: the operating system state counts
    the processes run so far, the working directory is [/work], and
    [shell script dir] says what [bash -c script] prints and how it ends. *)
Definition host (shell : string → string → string * option error) : Runtime :=
  {| OS := nat;
     CombinedOutput := λ script dir os, (S os, shell script dir);
     Getwd := λ _, "/work";
     TrimSpace := TrimSpaceAscii;
     Unmarshal := json.Unmarshal |}.

(** The first word of a script: what precedes its first space. *)
Fixpoint first_word (s : string) : string :=
  match s with
  | EmptyString => EmptyString
  | String c s' => if Ascii.eqb c " " then EmptyString else String c (first_word s')
  end.

(** What [bash -c] does with the few scripts of the unit tests, on a
    host where only [echo], [true] and [false] are found. *)
Definition scriptedBash (script dir : string) : string * option error :=
  if (script =? "")%string then (EmptyString, None)
  else if (script =? "true")%string then (EmptyString, None)
  else if (script =? "false")%string then (EmptyString, Some "exit status 1")
  else if HasPrefix script "echo "
  then (String.substring 5 (String.length script) script +:+ newline, None)
  else ("bash: line 1: " +:+ first_word script +:+ ": command not found" +:+ newline,
        Some "exit status 127").

(** The host of the unit tests. *)
Definition testHost : Runtime := host scriptedBash.

(** A process that prints [out] and ends with [err], whatever the script. *)
Definition prints (out : string) (err : option error)
  : string → string → string * option error :=
  λ _ _, (out, err).

Definition start {RT : Runtime} {L : Type} (os : OS) (llm : L) : World L :=
  {| w_os := os; w_llm := llm; w_trace := [] |}.

(** The mock of a test: the given responses, no call made yet. *)
Definition mock (rs : list ChatCompletion) : mockLLMClient :=
  {| responses := rs; calls := 0 |}.

(** The response of [TestAgentLoop_ToolCallWithInvalidJSON]. *)
Definition badCall : ToolCall :=
  {| tc_ID := "bad-call"; tc_Name := "bash"; tc_Arguments := "{invalid json" |}.

Definition badResp : ChatCompletion := makeToolCallsResponse [badCall].

(** A call of [bash] with the given argument text. *)
Definition bashCall (id arguments : string) : ToolCall :=
  {| tc_ID := id; tc_Name := "bash"; tc_Arguments := arguments |}.

(** The arguments [{"command": ...}], decoded. *)
Definition commandArgs (command : string) : gmap string any :=
  {[ "command" := AnyString command ]}.

End testing.

(** ** Configuration from the environment

    [main.go] ([newClient], [getModel]) and package [qwen] ([NewClient],
    [Model]) read three environment variables.  The environment is a finite
    map; [openai.NewClient] is observed through the two options it is
    given. *)

(** [os.Getenv]: the value of the variable, empty when it is not set. *)
Definition Getenv (env : gmap string string) (key : string) : string :=
  default EmptyString (env !! key).

(** The client that [openai.NewClient(option.WithAPIKey(apiKey),
    option.WithBaseURL(baseURL))] builds. *)
Record Client : Type := {
  APIKey : string;
  BaseURL : string
}.

Module s01_env.

Definition newClient (env : gmap string string) : Client + error :=
  let apiKey := Getenv env "DASHSCOPE_API_KEY" in
  if (apiKey =? "")%string then inr "DASHSCOPE_API_KEY is not set"
  else
    let baseURL := Getenv env "DASHSCOPE_BASE_URL" in
    if (baseURL =? "")%string then inr "DASHSCOPE_BASE_URL is not set"
    else inl {| APIKey := apiKey; BaseURL := baseURL |}.

Definition getModel (env : gmap string string) : string :=
  let m := Getenv env "DASHSCOPE_MODEL" in
  if negb (m =? "")%string then m else "qwen-plus".

End s01_env.

Module qwen.

Definition defaultModel : string := "qwen-plus".

Definition NewClient (env : gmap string string) : Client + error :=
  let apiKey := Getenv env "DASHSCOPE_API_KEY" in
  if (apiKey =? "")%string then inr "DASHSCOPE_API_KEY is not set"
  else
    let baseURL := Getenv env "DASHSCOPE_BASE_URL" in
    if (baseURL =? "")%string then inr "DASHSCOPE_BASE_URL is not set"
    else inl {| APIKey := apiKey; BaseURL := baseURL |}.

Definition Model (env : gmap string string) : string :=
  let m := Getenv env "DASHSCOPE_MODEL" in
  if negb (m =? "")%string then m else defaultModel.

End qwen.

(** Whether an event is the start of a subprocess. *)
Definition is_spawn (e : Event) : bool :=
  match e with EvSpawn _ _ => true | _ => false end.

(** ** The read-eval-print loop of [agents/s01_agent_loop/main.go]

    The [for] loop of [main], from the prompt to the blank line after the
    reply.  Standard input is the list of the lines that [scanner.Scan]
    yields, without their line ends; [fuel] is the fuel of each call of
    [agentLoop].  The value is the history held when the loop is left.
    The messages of a history built here carry their text in [content]
    only, so the loop over the content parts of the reply prints nothing
    and is left out. *)

Module s01_main.
Section s01_main.

Context {RT : Runtime} {L : Type} {LC : LLMClient L}.

(** [fmt.Sprintf("You are a coding agent at %s. Use bash to solve tasks.
    Act, don't explain.", cwd)]. *)
Definition systemPrompt (cwd : string) : string :=
  "You are a coding agent at " +:+ cwd
  +:+ ". Use bash to solve tasks. Act, don't explain.".

(** [query == "" || query == "q" || query == "exit"]. *)
Definition isQuit (query : string) : bool :=
  (query =? "")%string || (query =? "q")%string || (query =? "exit")%string.

(** The printing of the final reply: [if last.OfAssistant != nil]. *)
Definition printReply (last : Message) : IO L unit :=
  match role last with
  | assistant =>
      if negb (content last =? "")%string then Println (content last)
      else mret tt
  | _ => mret tt
  end.

Fixpoint main_loop (fuel : nat) (system : string) (lines : list string)
    (history : list Message) : IO L (Outcome (list Message)) :=
  _ ← Printf (colorCyan +:+ "s01 >> " +:+ colorReset);
  match lines with
  | [] => mret (Returned history)
  | line :: rest =>
      let query := TrimSpace line in
      if isQuit query then mret (Returned history)
      else
        let history := history ++ [UserMessage query] in
        o ← s01.agentLoop fuel system history [];
        match o with
        | Returned history =>
            match last history with
            | None => mret (Panicked "index out of range [-1]")
            | Some lastMessage =>
                _ ← printReply lastMessage;
                _ ← Println EmptyString;
                main_loop fuel system rest history
            end
        | Panicked reason => mret (Panicked reason)
        | OutOfFuel => mret OutOfFuel
        end
  end.

(** The queries the loop handles: the trimmed lines before the first
    one that is empty, [q] or [exit]. *)
Fixpoint queries (lines : list string) : list string :=
  match lines with
  | [] => []
  | line :: rest =>
      if isQuit (TrimSpace line) then [] else TrimSpace line :: queries rest
  end.

End s01_main.
End s01_main.

(** * Properties *)

(** ** Go strings *)

Module GoStringsFacts.

Lemma app_String (c : ascii) (s t : string) :
  String c s +:+ t = String c (s +:+ t).
Proof. reflexivity. Qed.

Lemma app_empty_l (s : string) : "" +:+ s = s.
Proof. reflexivity. Qed.

Lemma len_nonneg (s : string) : 0 ≤ len s.
Proof. unfold len. lia. Qed.

Lemma len_app (s t : string) : len (s +:+ t) = len s + len t.
Proof.
  unfold len. induction s as [|c s IH]; [by rewrite app_empty_l|].
  rewrite app_String. cbn [String.length]. lia.
Qed.

Lemma len_empty_iff (s : string) : len s = 0 ↔ s = "".
Proof. destruct s; unfold len; cbn [String.length]; split; (done || lia). Qed.

Lemma length_substring_0 (n : nat) (s : string) :
  (n ≤ String.length s)%nat → String.length (String.substring 0 n s) = n.
Proof.
  revert s. induction n as [|n IH]; intros [|c s] Hn; cbn in *; try lia; try done.
  rewrite IH; lia.
Qed.

(** [s[:n]] has [n] bytes whenever Go accepts the slice expression. *)
Lemma len_slice_to (s : string) (n : Z) :
  0 ≤ n ≤ len s → len (slice_to s n) = n.
Proof.
  unfold len, slice_to. intros Hn. rewrite length_substring_0; lia.
Qed.

(** [s[:n]] is a prefix of [s]. *)
Lemma slice_to_prefix (s : string) (n : Z) : ∃ t, s = slice_to s n +:+ t.
Proof.
  unfold slice_to. generalize (Z.to_nat n) as k. clear n.
  intros k. revert s. induction k as [|k IH]; intros [|c s]; cbn.
  - by exists "".
  - by exists (String c s).
  - by exists "".
  - destruct (IH s) as [t Ht]. exists t. rewrite app_String. by rewrite <- Ht.
Qed.

Lemma slice_to_nonempty (s : string) (n : Z) :
  0 < n → s ≠ "" → slice_to s n ≠ "".
Proof.
  unfold slice_to. intros Hn Hs.
  destruct (Z.to_nat n) as [|k] eqn:Hk; [lia|].
  destruct s as [|c s]; [done|]. by cbn.
Qed.

Lemma eqb_empty_true (s : string) : (s =? "")%string = true ↔ s = "".
Proof. apply String.eqb_eq. Qed.

Lemma eqb_empty_false (s : string) : (s =? "")%string = false ↔ s ≠ "".
Proof. apply String.eqb_neq. Qed.

Lemma HasPrefix_app (p s : string) : HasPrefix (p +:+ s) p = true.
Proof.
  induction p as [|c p IH]; [by destruct s|].
  rewrite app_String. cbn. rewrite Ascii.eqb_refl. exact IH.
Qed.

Lemma HasPrefix_inv (s p : string) :
  HasPrefix s p = true → ∃ t, s = p +:+ t.
Proof.
  revert s. induction p as [|c p IH]; intros s H.
  - by exists s.
  - destruct s as [|d s]; [done|]. cbn in H.
    apply andb_true_iff in H as [Hc Hp]. apply Ascii.eqb_eq in Hc as ->.
    destruct (IH _ Hp) as [t ->]. by exists t.
Qed.

(** [strings.Contains] is the substring test. *)
Lemma Contains_spec (s p : string) :
  Contains s p = true ↔ ∃ a b, s = a +:+ p +:+ b.
Proof.
  split.
  - induction s as [|c s IH]; cbn [Contains]; intros H.
    + apply orb_true_iff in H as [H|H]; [|done].
      apply HasPrefix_inv in H as [t ->]. by exists "", t.
    + apply orb_true_iff in H as [H|H].
      * apply HasPrefix_inv in H as [t ->]. by exists "", t.
      * destruct (IH H) as (a & b & ->). by exists (String c a), b.
  - intros (a & b & ->). induction a as [|c a IH].
    + rewrite app_empty_l. destruct (p +:+ b) eqn:E; cbn [Contains];
        rewrite <- E, HasPrefix_app; done.
    + rewrite app_String. cbn [Contains]. rewrite IH. apply orb_true_r.
Qed.

(** No pattern of the denylist occurs in the empty command. *)
Lemma empty_command_allowed :
  existsb (Contains "") s01.dangerousPatterns = false.
Proof. reflexivity. Qed.

(** For the JSON reader, a text that is not well-formed is rejected by
    [Unmarshal]. *)
Lemma json_invalid_rejected (s : string) :
  json.Valid s = false → json.Unmarshal s = inr "invalid JSON text".
Proof.
  unfold json.Valid, json.Unmarshal. intros H.
  apply bool_decide_eq_false in H.
  destruct (json.decode s) as [v|]; [|done].
  destruct H. by exists v.
Qed.

End GoStringsFacts.

Import GoStringsFacts.

(** ** The bash tool of both variants *)

Ltac io_unfold :=
  unfold mbind, mret, IO_bind, IO_ret, spawn, getwd, emit, Printf, Println,
    Fprintln_Stderr, complete in *.

Section BashTool.

Context {RT : Runtime} {L : Type} {LC : LLMClient L}.

Implicit Types (w : World L) (command dir out : string) (err : option error).

Lemma spawn_eq command dir w :
  spawn command dir w = (spawned command dir w, (CombinedOutput command dir (w_os w)).2).
Proof. unfold spawn, spawned. by destruct (CombinedOutput _ _ _). Qed.

Lemma runBashIn_blocked command dir w :
  existsb (Contains command) s01.dangerousPatterns = true →
  s01.runBashIn command dir w = (w, "Error: Dangerous command blocked").
Proof. intros H. unfold s01.runBashIn. by rewrite H. Qed.

Lemma runBashIn_allowed command dir w out err :
  existsb (Contains command) s01.dangerousPatterns = false →
  (CombinedOutput command (s01.cmdDir_of dir w) (w_os w)).2 = (out, err) →
  s01.runBashIn command dir w =
    (spawned command (s01.cmdDir_of dir w) w,
     let result := TrimSpace out in
     let result :=
       match err with
       | Some e => if (result =? "")%string then "Error: " +:+ e else result
       | None => result
       end in
     let result := if (result =? "")%string then "(no output)" else result in
     if 50000 <? len result then slice_to result 50000 else result).
Proof.
  intros Hallowed Hrun. unfold s01.runBashIn. rewrite Hallowed.
  unfold s01.cmdDir_of, spawned in *. io_unfold.
  destruct (negb (dir =? "")%string); cbn [fst snd] in *;
    destruct (CombinedOutput _ _ _) as [os' [out' err']]; cbn [fst snd] in *;
    by simplify_eq.
Qed.

Lemma bashHandler_not_string (args : gmap string any) w :
  (assert_string (args !! "command")).2 = false →
  registry_main.bashHandler args w = (w, ("", Some "command must be a string")).
Proof.
  intros H. unfold registry_main.bashHandler.
  destruct (assert_string _) as [c ok]; cbn in H; by subst.
Qed.

Lemma bashHandler_string (args : gmap string any) command w out err :
  args !! "command" = Some (AnyString command) →
  (CombinedOutput command "" (w_os w)).2 = (out, err) →
  registry_main.bashHandler args w =
    (spawned command "" w,
     (match err with
      | Some e => "exit error: " +:+ e +:+ newline +:+ out
      | None =>
          if 4000 <? len out
          then slice_to out 4000 +:+ newline +:+ "...(truncated)"
          else out
      end, None)).
Proof.
  intros Hargs Hrun. unfold registry_main.bashHandler. rewrite Hargs. cbn.
  io_unfold. unfold spawned.
  destruct (CombinedOutput _ _ _) as [os' [out' err']]; cbn in *.
  simplify_eq. by destruct err.
Qed.

(** C2 (amended).  A command that contains one of the five patterns of
    the denylist is answered by the interactive [runBashIn] with exactly
    the fixed text [Error: Dangerous command blocked], and the world is
    untouched: no subprocess is spawned, nothing is printed.  The
    registry based [bashHandler] has no safety gate: given the same
    command it spawns the subprocess. *)
Theorem C2_safety_gate command dir w pattern before after :
  pattern ∈ s01.dangerousPatterns →
  command = before +:+ pattern +:+ after →
  s01.runBashIn command dir w = (w, "Error: Dangerous command blocked")
  ∧ ∀ args : gmap string any,
      args !! "command" = Some (AnyString command) →
      (registry_main.bashHandler args w).1 = spawned command "" w.
Proof.
  intros Hpat ->. split.
  - apply runBashIn_blocked. apply existsb_exists. exists pattern. split.
    + by apply list_elem_of_In.
    + apply Contains_spec. by exists before, after.
  - intros args Hargs.
    destruct (CombinedOutput (before +:+ pattern +:+ after) "" (w_os w)).2
      as [out err] eqn:Hrun.
    by rewrite (bashHandler_string _ _ _ _ _ Hargs Hrun).
Qed.

(** C5 (amended).  Interactive variant: when the captured output, once
    its leading and trailing white space is trimmed, is longer than
    50,000 bytes, [runBashIn] returns its first 50,000 bytes and nothing
    more.  Registry based variant: when a successful command captured
    more than 4,000 bytes, [bashHandler] returns the first 4,000 bytes
    followed by a line feed and the marker [...(truncated)], 4,015 bytes
    in all. *)
Theorem C5_output_cap :
  (∀ command dir w out err,
      existsb (Contains command) s01.dangerousPatterns = false →
      (CombinedOutput command (s01.cmdDir_of dir w) (w_os w)).2 = (out, err) →
      50000 < len (TrimSpace out) →
      (s01.runBashIn command dir w).2 = slice_to (TrimSpace out) 50000
      ∧ len (s01.runBashIn command dir w).2 = 50000)
  ∧
  (∀ (args : gmap string any) command w out,
      args !! "command" = Some (AnyString command) →
      (CombinedOutput command "" (w_os w)).2 = (out, None) →
      4000 < len out →
      (registry_main.bashHandler args w).2 =
        (slice_to out 4000 +:+ newline +:+ "...(truncated)", None)
      ∧ len (registry_main.bashHandler args w).2.1 = 4015).
Proof.
  split.
  - intros command dir w out err Hallowed Hrun Hlong.
    rewrite (runBashIn_allowed _ _ _ _ _ Hallowed Hrun). cbn [snd].
    assert (TrimSpace out ≠ "") as Hne.
    { intros E. rewrite E in Hlong. by cbn in Hlong. }
    apply eqb_empty_false in Hne.
    assert ((match err with
             | Some e => if (TrimSpace out =? "")%string
                         then "Error: " +:+ e else TrimSpace out
             | None => TrimSpace out
             end) = TrimSpace out) as ->.
    { destruct err; by rewrite ?Hne. }
    rewrite Hne. apply Z.ltb_lt in Hlong as Hlong'. rewrite Hlong'.
    split; [done|]. apply len_slice_to. lia.
  - intros args command w out Hargs Hrun Hlong.
    rewrite (bashHandler_string _ _ _ _ _ Hargs Hrun). cbn [fst snd].
    apply Z.ltb_lt in Hlong as Hlong'. rewrite Hlong'. split; [done|].
    rewrite len_app, len_slice_to by lia. reflexivity.
Qed.

(** C6 (amended).  Interactive variant: when the command ran, ended
    without error, and its captured output is empty once trimmed,
    [runBashIn] returns exactly [(no output)]; and [runBashIn] returns
    the empty string for no command at all.  Registry based variant:
    [bashHandler] neither trims nor substitutes: the output of a
    successful command of at most 4,000 bytes is returned as captured,
    the empty string when nothing was captured. *)
Theorem C6_no_output :
  (∀ command dir w out,
      existsb (Contains command) s01.dangerousPatterns = false →
      (CombinedOutput command (s01.cmdDir_of dir w) (w_os w)).2 = (out, None) →
      TrimSpace out = "" →
      (s01.runBashIn command dir w).2 = "(no output)")
  ∧ (∀ command dir w, (s01.runBashIn command dir w).2 ≠ "")
  ∧ (∀ (args : gmap string any) command w out,
      args !! "command" = Some (AnyString command) →
      (CombinedOutput command "" (w_os w)).2 = (out, None) →
      len out ≤ 4000 →
      (registry_main.bashHandler args w).2 = (out, None)).
Proof.
  split; [|split].
  - intros command dir w out Hallowed Hrun Hempty.
    rewrite (runBashIn_allowed _ _ _ _ _ Hallowed Hrun). cbn [snd].
    by rewrite Hempty.
  - intros command dir w.
    destruct (existsb (Contains command) s01.dangerousPatterns) eqn:Hgate.
    { by rewrite (runBashIn_blocked _ _ _ Hgate). }
    destruct (CombinedOutput command (s01.cmdDir_of dir w) (w_os w)).2
      as [out err] eqn:Hrun.
    rewrite (runBashIn_allowed _ _ _ _ _ Hgate Hrun). cbn [snd]. cbv zeta.
    set (r1 := match err with Some _ => _ | None => _ end).
    set (r2 := if (r1 =? "")%string then _ else _).
    assert (r2 ≠ "") as Hr2.
    { subst r2. destruct (r1 =? "")%string eqn:E; [done|].
      by apply eqb_empty_false. }
    destruct (50000 <? len r2); [|done].
    by apply slice_to_nonempty.
  - intros args command w out Hargs Hrun Hshort.
    rewrite (bashHandler_string _ _ _ _ _ Hargs Hrun). cbn [snd].
    apply Z.ltb_ge in Hshort. by rewrite Hshort.
Qed.

(** C7 (amended).  Interactive variant, for a command that ran and ended
    with a process error: when the trimmed captured output is empty,
    [runBashIn] returns [Error: ] followed by the text of the process
    error; when it is not empty, [runBashIn] returns the trimmed captured
    output; in both cases cut to its first 50,000 bytes when longer.
    Registry based variant: [bashHandler] returns [exit error: ], the
    text of the process error, a line feed and the captured output,
    whether or not any output was captured. *)
Theorem C7_process_error :
  (∀ command dir w out e,
      existsb (Contains command) s01.dangerousPatterns = false →
      (CombinedOutput command (s01.cmdDir_of dir w) (w_os w)).2 = (out, Some e) →
      (TrimSpace out = "" →
         (s01.runBashIn command dir w).2 =
           if 50000 <? len ("Error: " +:+ e)
           then slice_to ("Error: " +:+ e) 50000 else "Error: " +:+ e)
      ∧ (TrimSpace out ≠ "" →
         (s01.runBashIn command dir w).2 =
           if 50000 <? len (TrimSpace out)
           then slice_to (TrimSpace out) 50000 else TrimSpace out))
  ∧
  (∀ (args : gmap string any) command w out e,
      args !! "command" = Some (AnyString command) →
      (CombinedOutput command "" (w_os w)).2 = (out, Some e) →
      (registry_main.bashHandler args w).2 =
        ("exit error: " +:+ e +:+ newline +:+ out, None)).
Proof.
  split.
  - intros command dir w out e Hallowed Hrun.
    rewrite (runBashIn_allowed _ _ _ _ _ Hallowed Hrun). cbn [snd]. cbv zeta.
    split; intros Hout.
    + rewrite Hout. cbn [String.eqb]. 
      assert (("Error: " +:+ e =? "")%string = false) as ->; [|done].
      by apply eqb_empty_false.
    + apply eqb_empty_false in Hout. by rewrite !Hout.
  - intros args command w out e Hargs Hrun.
    by rewrite (bashHandler_string _ _ _ _ _ Hargs Hrun).
Qed.

End BashTool.

(** ** The interactive agent loop *)

Section InteractiveLoop.

Context {RT : Runtime} {L : Type} {LC : LLMClient L}.

Implicit Types (w : World L) (messages : list Message) (tc : ToolCall).

Lemma complete_eq params w :
  complete params w = (completed params w, (Complete (w_llm w) params).2).
Proof. unfold complete, completed. by destruct (Complete _ _). Qed.

Lemma runToolCalls_nil cwd messages w :
  s01.runToolCalls cwd [] messages w = (w, messages).
Proof. reflexivity. Qed.

Lemma runToolCalls_error cwd tc rest messages w err :
  Unmarshal (tc_Arguments tc) = inr err →
  s01.runToolCalls cwd (tc :: rest) messages w =
    s01.runToolCalls cwd rest
      (messages ++ [ToolMessage ("error: " +:+ err) (tc_ID tc)]) w.
Proof. intros H. cbn [s01.runToolCalls]. by rewrite H. Qed.

(** A call whose arguments were decoded: the command line is echoed,
    the tool runs, a preview of at most 200 bytes is printed. *)
Lemma runToolCalls_decoded cwd tc rest messages w args :
  Unmarshal (tc_Arguments tc) = inl args →
  let command := (assert_string (args !! "command")).1 in
  let w1 :=
    (Printf (colorYellow +:+ "$ " +:+ command +:+ colorReset +:+ newline) w).1 in
  let output := (s01.runBashIn command cwd w1).2 in
  let w2 := (s01.runBashIn command cwd w1).1 in
  let preview := if 200 <? len output then slice_to output 200 else output in
  s01.runToolCalls cwd (tc :: rest) messages w =
    s01.runToolCalls cwd rest (messages ++ [ToolMessage output (tc_ID tc)])
      (Println preview w2).1.
Proof.
  intros H. cbn [s01.runToolCalls]. rewrite H.
  destruct (assert_string (args !! "command")) as [command ok]. cbn [fst].
  unfold mbind, IO_bind, Printf, Println, emit. cbn [fst].
  by destruct (s01.runBashIn _ _ _) as [w2 output].
Qed.

Lemma runToolCalls_app cwd before after messages w :
  s01.runToolCalls cwd (before ++ after) messages w =
    s01.runToolCalls cwd after
      (s01.runToolCalls cwd before messages w).2
      (s01.runToolCalls cwd before messages w).1.
Proof.
  revert messages w. induction before as [|tc before IH]; intros messages w.
  - reflexivity.
  - rewrite <- app_comm_cons.
    destruct (Unmarshal (tc_Arguments tc)) as [args|err] eqn:E.
    + rewrite !(runToolCalls_decoded _ _ _ _ _ _ E). cbv zeta. apply IH.
    + rewrite !(runToolCalls_error _ _ _ _ _ _ E). apply IH.
Qed.

(** The tool never talks to the model and only adds to the trace. *)
Lemma runBashIn_trace command dir w :
  w_llm (s01.runBashIn command dir w).1 = w_llm w
  ∧ ∃ events, w_trace (s01.runBashIn command dir w).1 = w_trace w ++ events
      ∧ Forall (λ e, is_complete e = false) events.
Proof.
  destruct (existsb (Contains command) s01.dangerousPatterns) eqn:Hgate.
  - rewrite (runBashIn_blocked _ _ _ Hgate). split; [done|].
    exists []. by rewrite app_nil_r.
  - destruct (CombinedOutput command (s01.cmdDir_of dir w) (w_os w)).2
      as [out err] eqn:Hrun.
    rewrite (runBashIn_allowed _ _ _ _ _ Hgate Hrun). split; [done|].
    eexists. split; [reflexivity|]. by repeat constructor.
Qed.

(** One tool message per requested call, in request order, each
    carrying the id of its call; the model is not called meanwhile. *)
Lemma runToolCalls_spec cwd toolCalls messages w :
  ∃ results events,
    (s01.runToolCalls cwd toolCalls messages w).2 = messages ++ results
    ∧ tool_call_id <$> results = tc_ID <$> toolCalls
    ∧ Forall (λ m, role m = tool) results
    ∧ w_llm (s01.runToolCalls cwd toolCalls messages w).1 = w_llm w
    ∧ w_trace (s01.runToolCalls cwd toolCalls messages w).1 = w_trace w ++ events
    ∧ Forall (λ e, is_complete e = false) events.
Proof.
  revert messages w. induction toolCalls as [|tc rest IH]; intros messages w.
  - exists [], []. rewrite runToolCalls_nil, !app_nil_r. by repeat split.
  - destruct (Unmarshal (tc_Arguments tc)) as [args|err] eqn:E.
    + rewrite (runToolCalls_decoded _ _ _ _ _ _ E). cbv zeta.
      set (command := (assert_string (args !! "command")).1).
      set (w1 := (Printf _ w).1).
      destruct (runBashIn_trace command cwd w1) as (Hllm & ev & Htr & Hev).
      set (w3 := (Println _ _).1).
      destruct (IH (messages ++ [ToolMessage (s01.runBashIn command cwd w1).2 (tc_ID tc)]) w3)
        as (results & events & -> & Hids & Hroles & -> & -> & Hevents).
      eexists (_ :: results), _. rewrite <- app_assoc.
      split; [reflexivity|]. split; [by rewrite !fmap_cons, Hids|].
      split; [by constructor|].
      split; [subst w3; unfold Println, emit; cbn [fst w_llm]; by rewrite Hllm|].
      split.
      * subst w3. unfold Println, emit. cbn [fst w_trace]. rewrite Htr.
        subst w1. unfold Printf, emit. cbn [fst w_trace].
        rewrite <- !app_assoc. reflexivity.
      * cbn. constructor; [done|]. apply Forall_app. split; [done|].
        by constructor.
    + rewrite (runToolCalls_error _ _ _ _ _ _ E).
      destruct (IH (messages ++ [ToolMessage ("error: " +:+ err) (tc_ID tc)]) w)
        as (results & events & -> & Hids & Hroles & -> & -> & Hevents).
      eexists (_ :: results), events. rewrite <- app_assoc.
      split; [reflexivity|]. split; [by rewrite !fmap_cons, Hids|].
      split; [by constructor|]. done.
Qed.

(** The four ways through the body of the loop. *)
Lemma agentLoop_body_failed system cwd messages w err :
  (Complete (w_llm w) (s01.params_of system messages)).2 = inr err →
  s01.agentLoop_body system cwd messages w =
    ((Fprintln_Stderr ("API error: " +:+ err)
        (completed (s01.params_of system messages) w)).1,
     Break (Returned messages)).
Proof.
  intros H. unfold s01.agentLoop_body, mbind, IO_bind.
  rewrite complete_eq, H. reflexivity.
Qed.

Lemma agentLoop_body_panic system cwd messages w resp :
  (Complete (w_llm w) (s01.params_of system messages)).2 = inl resp →
  Choices resp = [] →
  s01.agentLoop_body system cwd messages w =
    (completed (s01.params_of system messages) w,
     Break (Panicked "index out of range [0] with length 0")).
Proof.
  intros H Hc. unfold s01.agentLoop_body, mbind, IO_bind.
  rewrite complete_eq, H, Hc. reflexivity.
Qed.

Lemma agentLoop_body_final system cwd messages w resp choice others :
  (Complete (w_llm w) (s01.params_of system messages)).2 = inl resp →
  Choices resp = choice :: others →
  FinishReason choice ≠ "tool_calls" →
  s01.agentLoop_body system cwd messages w =
    (completed (s01.params_of system messages) w,
     Break (Returned (messages ++ [ToParam (ch_Message choice)]))).
Proof.
  intros H Hc Hf. unfold s01.agentLoop_body, mbind, IO_bind.
  rewrite complete_eq, H, Hc. apply String.eqb_neq in Hf. by rewrite Hf.
Qed.

Lemma agentLoop_body_tools system cwd messages w resp choice others :
  (Complete (w_llm w) (s01.params_of system messages)).2 = inl resp →
  Choices resp = choice :: others →
  FinishReason choice = "tool_calls" →
  s01.agentLoop_body system cwd messages w =
    let r := s01.runToolCalls cwd (cm_ToolCalls (ch_Message choice))
               (messages ++ [ToParam (ch_Message choice)])
               (completed (s01.params_of system messages) w) in
    (r.1, Continue r.2).
Proof.
  intros H Hc Hf. unfold s01.agentLoop_body, mbind, IO_bind.
  assert (negb (FinishReason choice =? "tool_calls")%string = false) as E
    by (by rewrite Hf).
  rewrite complete_eq, H, Hc, E.
  by destruct (s01.runToolCalls _ _ _ _).
Qed.

Lemma agentLoop_from_S fuel system cwd messages w :
  s01.agentLoop_from (S fuel) system cwd messages w =
    match (s01.agentLoop_body system cwd messages w).2 with
    | Continue messages' =>
        s01.agentLoop_from fuel system cwd messages'
          (s01.agentLoop_body system cwd messages w).1
    | Break o => ((s01.agentLoop_body system cwd messages w).1, o)
    end.
Proof.
  cbn [s01.agentLoop_from]. unfold mbind, IO_bind.
  by destruct (s01.agentLoop_body _ _ _ _) as [w' [m'|o]].
Qed.

(** Fuel is an artefact of the model: once the loop has ended with some
    fuel, it ends the same way with more. *)
Lemma agentLoop_from_fuel fuel fuel' system cwd messages w :
  (s01.agentLoop_from fuel system cwd messages w).2 ≠ OutOfFuel →
  (fuel ≤ fuel')%nat →
  s01.agentLoop_from fuel' system cwd messages w =
    s01.agentLoop_from fuel system cwd messages w.
Proof.
  revert fuel' messages w. induction fuel as [|fuel IH]; intros fuel' messages w.
  - intros H. by destruct H.
  - intros Hend Hle. destruct fuel' as [|fuel']; [lia|].
    rewrite !agentLoop_from_S in *.
    destruct (s01.agentLoop_body system cwd messages w).2 as [messages'|o];
      [|done].
    apply IH; [done|lia].
Qed.

(** What one pass through the body does to the history and to the
    trace: the request of the turn is the first new event and the only
    call of the model; what is appended is an assistant message followed
    by tool messages. *)
Lemma agentLoop_body_spec system cwd messages w :
  ∃ events,
    w_trace (s01.agentLoop_body system cwd messages w).1 =
      w_trace w ++ EvComplete (s01.params_of system messages) :: events
    ∧ Forall (λ e, is_complete e = false) events
    ∧ match (s01.agentLoop_body system cwd messages w).2 with
      | Continue h | Break (Returned h) =>
          ∃ added, h = messages ++ added
                   ∧ Forall (λ m, role m = assistant ∨ role m = tool) added
      | Break _ => True
      end.
Proof.
  destruct (Complete (w_llm w) (s01.params_of system messages)).2
    as [resp|err] eqn:Hc.
  - destruct (Choices resp) as [|choice others] eqn:Hch.
    + rewrite (agentLoop_body_panic _ _ _ _ _ Hc Hch). by exists [].
    + destruct (decide (FinishReason choice = "tool_calls")) as [Hf|Hf].
      * rewrite (agentLoop_body_tools _ _ _ _ _ _ _ Hc Hch Hf). cbv zeta.
        cbn [fst snd].
        destruct (runToolCalls_spec cwd (cm_ToolCalls (ch_Message choice))
                    (messages ++ [ToParam (ch_Message choice)])
                    (completed (s01.params_of system messages) w))
          as (results & events & -> & _ & Hroles & _ & -> & Hev).
        exists events. cbn [completed w_trace]. rewrite <- !app_assoc.
        split; [done|]. split; [done|].
        exists (ToParam (ch_Message choice) :: results). split; [done|].
        constructor; [by left|]. eapply Forall_impl; [exact Hroles|]. by right.
      * rewrite (agentLoop_body_final _ _ _ _ _ _ _ Hc Hch Hf). exists [].
        split; [done|]. split; [done|].
        exists [ToParam (ch_Message choice)]. split; [done|].
        by repeat constructor; left.
  - rewrite (agentLoop_body_failed _ _ _ _ _ Hc).
    eexists [_]. unfold Fprintln_Stderr, emit. cbn [fst snd completed w_trace].
    rewrite <- app_assoc. split; [reflexivity|]. split; [by repeat constructor|].
    exists []. by rewrite app_nil_r.
Qed.

(** The loop as a whole: the history only grows, by assistant and tool
    messages, and every request sent on the way is the system prompt
    followed by a history between the initial and the final one. *)
Lemma agentLoop_from_spec fuel system cwd messages w :
  ∃ events,
    w_trace (s01.agentLoop_from fuel system cwd messages w).1 = w_trace w ++ events
    ∧ ∀ h, (s01.agentLoop_from fuel system cwd messages w).2 = Returned h →
        (∃ added, h = messages ++ added
                  ∧ Forall (λ m, role m = assistant ∨ role m = tool) added)
        ∧ ∀ params, EvComplete params ∈ events →
            ∃ sent, params = s01.params_of system sent
                    ∧ messages `prefix_of` sent ∧ sent `prefix_of` h.
Proof.
  revert messages w. induction fuel as [|fuel IH]; intros messages w.
  - exists []. rewrite app_nil_r. split; [done|]. intros h Hh. discriminate.
  - rewrite agentLoop_from_S.
    destruct (agentLoop_body_spec system cwd messages w)
      as (ev & Htrace & Hev & Hstep).
    destruct (s01.agentLoop_body system cwd messages w).2 as [messages'|o] eqn:Hs.
    + destruct Hstep as (added & -> & Hadded).
      destruct (IH (messages ++ added) (s01.agentLoop_body system cwd messages w).1)
        as (events & -> & Hret).
      rewrite Htrace, <- app_assoc, <- app_comm_cons.
      eexists. split; [reflexivity|]. intros h Hh.
      destruct (Hret h Hh) as [(added' & -> & Hadded') Hsent]. split.
      * exists (added ++ added'). rewrite app_assoc. split; [done|].
        by apply Forall_app.
      * intros params Hin. apply elem_of_cons in Hin as [Hin|Hin].
        -- exists messages. inversion Hin. split; [done|]. split; [done|].
           rewrite <- app_assoc. by apply prefix_app_r.
        -- apply elem_of_app in Hin as [Hin|Hin].
           ++ rewrite Forall_forall in Hev. by specialize (Hev _ Hin).
           ++ destruct (Hsent _ Hin) as (sent & -> & Hp1 & Hp2).
              exists sent. split; [done|]. split; [|done].
              etrans; [|exact Hp1]. by apply prefix_app_r.
    + cbn [fst snd]. rewrite Htrace. eexists. split; [reflexivity|].
      intros h ->. destruct Hstep as (added & -> & Hadded). split.
      * by exists added.
      * intros params Hin. apply elem_of_cons in Hin as [Hin|Hin].
        -- exists messages. inversion Hin. split; [done|]. split; [done|].
           by apply prefix_app_r.
        -- rewrite Forall_forall in Hev. by specialize (Hev _ Hin).
Qed.

End InteractiveLoop.

(** ** The tool registry and the registry based loop *)

Section RegistryLoop.

Context {RT : Runtime} {L : Type} {LC : LLMClient L}.

Implicit Types (w : World L) (messages : list Message) (tc : ToolCall)
  (r registry : Registry L) (handler : Handler L).

Lemma Dispatch_registered r name handler args :
  handlers r !! name = Some handler → Dispatch r name args = handler args.
Proof. intros H. unfold Dispatch. unfold Handler in *. by rewrite H. Qed.

Lemma Dispatch_unknown r name args w :
  handlers r !! name = None →
  Dispatch r name args w = (w, ("", Some ("unknown tool: " +:+ name))).
Proof. intros H. unfold Dispatch. unfold Handler in *. by rewrite H. Qed.

Lemma handlers_Register r def handler name :
  handlers (Register r def handler) !! name =
    if decide (fn_Name def = name) then Some handler else handlers r !! name.
Proof. unfold Register. cbn [handlers]. apply lookup_insert. Qed.

Lemma handlers_RegisterAll_other (later : list (ChatCompletionToolParam * Handler L))
    r name :
  Forall (λ p, fn_Name p.1 ≠ name) later →
  handlers (RegisterAll r later) !! name = handlers r !! name.
Proof.
  revert r. induction later as [|[def handler] later IH]; intros r Hne; [done|].
  apply Forall_cons in Hne as [Hdef Hlater]. unfold RegisterAll in *. cbn [foldl].
  rewrite (IH _ Hlater), handlers_Register. cbn [fst] in Hdef.
  by rewrite decide_False.
Qed.

Lemma Definitions_Register r def handler :
  Definitions (Register r def handler) = Definitions r ++ [def].
Proof. reflexivity. Qed.

Lemma Run_runToolCalls_nil registry messages w :
  loop.runToolCalls registry [] messages w = (w, (messages, None)).
Proof. reflexivity. Qed.

Lemma Run_runToolCalls_error registry tc rest messages w err :
  Unmarshal (tc_Arguments tc) = inr err →
  loop.runToolCalls registry (tc :: rest) messages w =
    (w, (messages,
         Some ("failed to parse tool args for " +:+ tc_Name tc +:+ ": " +:+ err))).
Proof. intros H. cbn [loop.runToolCalls]. by rewrite H. Qed.

Lemma Run_runToolCalls_decoded registry tc rest messages w args :
  Unmarshal (tc_Arguments tc) = inl args →
  let d := Dispatch registry (tc_Name tc) args w in
  let output :=
    match d.2.2 with
    | Some e => "error: " +:+ e
    | None => d.2.1
    end in
  loop.runToolCalls registry (tc :: rest) messages w =
    loop.runToolCalls registry rest (messages ++ [ToolMessage output (tc_ID tc)]) d.1.
Proof.
  intros H. cbn [loop.runToolCalls]. rewrite H. unfold mbind, IO_bind.
  by destruct (Dispatch _ _ _ _) as [w' [output err]].
Qed.


Lemma Run_runToolCalls_app registry before after messages w w1 m1 :
  loop.runToolCalls registry before messages w = (w1, (m1, None)) →
  loop.runToolCalls registry (before ++ after) messages w =
    loop.runToolCalls registry after m1 w1.
Proof.
  revert messages w. induction before as [|tc before IH]; intros messages w H.
  - rewrite Run_runToolCalls_nil in H. by simplify_eq.
  - rewrite <- app_comm_cons.
    destruct (Unmarshal (tc_Arguments tc)) as [args|err] eqn:E.
    + rewrite (Run_runToolCalls_decoded _ _ _ _ _ _ E) in H.
      rewrite (Run_runToolCalls_decoded _ _ _ _ _ _ E).
      cbv zeta in *. by apply IH.
    + rewrite (Run_runToolCalls_error _ _ _ _ _ _ E) in H. simplify_eq.
Qed.

Lemma Run_body_failed messages registry w err :
  (Complete (w_llm w) (loop.params_of messages registry)).2 = inr err →
  loop.Run_body messages registry w =
    (completed (loop.params_of messages registry) w,
     Break (Returned (messages, Some ("API call failed: " +:+ err)))).
Proof.
  intros H. unfold loop.Run_body, mbind, IO_bind.
  rewrite complete_eq, H. reflexivity.
Qed.

Lemma Run_body_tools messages registry w resp choice others :
  (Complete (w_llm w) (loop.params_of messages registry)).2 = inl resp →
  Choices resp = choice :: others →
  FinishReason choice = "tool_calls" →
  loop.Run_body messages registry w =
    let r := loop.runToolCalls registry (cm_ToolCalls (ch_Message choice))
               (messages ++ [ToParam (ch_Message choice)])
               (completed (loop.params_of messages registry) w) in
    (r.1,
     match r.2.2 with
     | Some e => Break (Returned (r.2.1, Some e))
     | None => Continue r.2.1
     end).
Proof.
  intros H Hc Hf. unfold loop.Run_body, mbind, IO_bind.
  assert (negb (FinishReason choice =? "tool_calls")%string = false) as E
    by (by rewrite Hf).
  rewrite complete_eq, H, Hc, E.
  by destruct (loop.runToolCalls _ _ _ _) as [w' [m' [e|]]].
Qed.


Lemma Run_S fuel messages registry w :
  loop.Run (S fuel) messages registry w =
    match (loop.Run_body messages registry w).2 with
    | Continue messages' =>
        loop.Run fuel messages' registry (loop.Run_body messages registry w).1
    | Break o => ((loop.Run_body messages registry w).1, o)
    end.
Proof.
  cbn [loop.Run]. unfold mbind, IO_bind.
  by destruct (loop.Run_body _ _ _) as [w' [m'|o]].
Qed.

Lemma Run_fuel fuel fuel' messages registry w :
  (loop.Run fuel messages registry w).2 ≠ OutOfFuel →
  (fuel ≤ fuel')%nat →
  loop.Run fuel' messages registry w = loop.Run fuel messages registry w.
Proof.
  revert fuel' messages w. induction fuel as [|fuel IH]; intros fuel' messages w.
  - intros H. by destruct H.
  - intros Hend Hle. destruct fuel' as [|fuel']; [lia|].
    rewrite !Run_S in *.
    destruct (loop.Run_body messages registry w).2 as [messages'|o]; [|done].
    apply IH; [done|lia].
Qed.

End RegistryLoop.

(** ** The claims about the loops and the registry *)

Section Claims.

Context {RT : Runtime} {L : Type} {LC : LLMClient L}.

Implicit Types (w : World L) (messages : list Message) (tc : ToolCall)
  (r registry : Registry L) (handler : Handler L).

(** C1 (amended).  Interactive loop: a tool call whose argument text
    [json.Unmarshal] rejects (every text that is not well-formed JSON is
    rejected) is answered by exactly one tool message, [error: ] followed
    by the text of the error, carrying the id of the call; the tool is
    not run for it, the other calls of the round are handled as usual, the
    round ends at the bottom of the loop and the next thing the loop does
    is to request the model again, with that history.  Registry based
    loop: [Run] stops at the first such call and returns the history
    built so far together with the error
    [failed to parse tool args for NAME: ...]. *)
Theorem C1_malformed_arguments :
  (∀ system cwd messages w resp choice others before tc after err,
      (Complete (w_llm w) (s01.params_of system messages)).2 = inl resp →
      Choices resp = choice :: others →
      FinishReason choice = "tool_calls" →
      cm_ToolCalls (ch_Message choice) = before ++ tc :: after →
      Unmarshal (tc_Arguments tc) = inr err →
      let r1 := s01.runToolCalls cwd before
                  (messages ++ [ToParam (ch_Message choice)])
                  (completed (s01.params_of system messages) w) in
      let r2 := s01.runToolCalls cwd after
                  (r1.2 ++ [ToolMessage ("error: " +:+ err) (tc_ID tc)]) r1.1 in
      s01.agentLoop_body system cwd messages w = (r2.1, Continue r2.2)
      ∧ ∀ fuel, ∃ events,
          w_trace (s01.agentLoop_from (S (S fuel)) system cwd messages w).1 =
            w_trace r2.1 ++ EvComplete (s01.params_of system r2.2) :: events)
  ∧
  (∀ fuel messages registry w resp choice others before tc after err w1 m1,
      (Complete (w_llm w) (loop.params_of messages registry)).2 = inl resp →
      Choices resp = choice :: others →
      FinishReason choice = "tool_calls" →
      cm_ToolCalls (ch_Message choice) = before ++ tc :: after →
      Unmarshal (tc_Arguments tc) = inr err →
      loop.runToolCalls registry before
        (messages ++ [ToParam (ch_Message choice)])
        (completed (loop.params_of messages registry) w) = (w1, (m1, None)) →
      loop.Run (S fuel) messages registry w =
        (w1, Returned (m1, Some ("failed to parse tool args for "
                                 +:+ tc_Name tc +:+ ": " +:+ err)))).
Proof.
  split.
  - intros system cwd messages w resp choice others before tc after err
      Hc Hch Hf Htcs Herr r1 r2.
    assert (s01.agentLoop_body system cwd messages w = (r2.1, Continue r2.2))
      as Hbody.
    { rewrite (agentLoop_body_tools _ _ _ _ _ _ _ Hc Hch Hf). cbv zeta.
      rewrite Htcs, runToolCalls_app, (runToolCalls_error _ _ _ _ _ _ Herr).
      reflexivity. }
    split; [exact Hbody|]. intros fuel.
    rewrite agentLoop_from_S, Hbody. cbn [fst snd].
    rewrite agentLoop_from_S.
    destruct (agentLoop_body_spec system cwd r2.2 r2.1) as (ev & Htr & _ & _).
    destruct (s01.agentLoop_body system cwd r2.2 r2.1).2 as [m'|o].
    + destruct (agentLoop_from_spec fuel system cwd m'
                  (s01.agentLoop_body system cwd r2.2 r2.1).1)
        as (ev' & -> & _).
      rewrite Htr, <- app_assoc, <- app_comm_cons. by eexists.
    + cbn [fst]. rewrite Htr. by eexists.
  - intros fuel messages registry w resp choice others before tc after err
      w1 m1 Hc Hch Hf Htcs Herr Hbefore.
    rewrite Run_S, (Run_body_tools _ _ _ _ _ _ Hc Hch Hf). cbv zeta.
    rewrite Htcs, (Run_runToolCalls_app _ _ _ _ _ _ _ Hbefore),
      (Run_runToolCalls_error _ _ _ _ _ _ Herr).
    reflexivity.
Qed.

(** C3.  If the call of the model fails, the loop returns the history
    it held before that call, unchanged: the interactive loop returns
    it alone, [Run] returns it with the error [API call failed: ...]. *)
Theorem C3_failed_call_returns_history :
  (∀ fuel system cwd messages w err,
      (Complete (w_llm w) (s01.params_of system messages)).2 = inr err →
      (s01.agentLoop_from (S fuel) system cwd messages w).2 = Returned messages)
  ∧
  (∀ fuel messages registry w err,
      (Complete (w_llm w) (loop.params_of messages registry)).2 = inr err →
      (loop.Run (S fuel) messages registry w).2 =
        Returned (messages, Some ("API call failed: " +:+ err))).
Proof.
  split.
  - intros fuel system cwd messages w err Hc.
    by rewrite agentLoop_from_S, (agentLoop_body_failed _ _ _ _ _ Hc).
  - intros fuel messages registry w err Hc.
    by rewrite Run_S, (Run_body_failed _ _ _ _ Hc).
Qed.



(** C8.  Registering a definition under a name that is already present
    replaces the handler: after two registrations under one name, and
    whatever was registered between them or, under other names, after
    them, [Dispatch] of that name runs the handler registered last.
    [Dispatch] of a name that was never registered yields the error
    [unknown tool: NAME] and leaves the world as it was: no handler
    runs. *)
Theorem C8_register_overwrites :
  (∀ r def1 handler1 between def2 handler2 later name args,
      fn_Name def1 = name →
      fn_Name def2 = name →
      Forall (λ p, fn_Name p.1 ≠ name) later →
      Dispatch
        (RegisterAll
           (Register (RegisterAll (Register r def1 handler1) between)
              def2 handler2) later)
        name args = handler2 args)
  ∧
  (∀ (tools : list (ChatCompletionToolParam * Handler L)) name args w,
      Forall (λ p, fn_Name p.1 ≠ name) tools →
      Dispatch (RegisterAll New tools) name args w =
        (w, ("", Some ("unknown tool: " +:+ name)))).
Proof.
  split.
  - intros r def1 handler1 between def2 handler2 later name args H1 H2 Hlater.
    apply Dispatch_registered.
    rewrite (handlers_RegisterAll_other _ _ _ Hlater), handlers_Register.
    by rewrite decide_True.
  - intros tools name args w Htools. apply Dispatch_unknown.
    by rewrite (handlers_RegisterAll_other _ _ _ Htools).
Qed.

(** C9.  Whenever the interactive loop returns, the history it was given
    is a prefix of the history it returns, and what was appended holds
    assistant and tool messages only, no system message: the system
    prompt is put in front of each request sent to the model (every
    request made is the system message followed by a prefix of the
    returned history) and is never stored in the history. *)
Theorem C9_system_prompt_not_persisted fuel prompt messages workDir w h :
  (s01.agentLoop fuel prompt messages workDir w).2 = Returned h →
  messages `prefix_of` h
  ∧ (∃ added, h = messages ++ added ∧ Forall (λ m, role m ≠ system) added)
  ∧ ∃ events,
      w_trace (s01.agentLoop fuel prompt messages workDir w).1 = w_trace w ++ events
      ∧ ∀ params, EvComplete params ∈ events →
          ∃ sent, Messages params = SystemMessage prompt :: sent
                  ∧ sent `prefix_of` h.
Proof.
  unfold s01.agentLoop. set (cwd := match workDir with [] => _ | _ => _ end).
  intros Hret.
  destruct (agentLoop_from_spec fuel prompt cwd messages w) as (events & Htr & Hspec).
  destruct (Hspec h Hret) as [(added & -> & Hadded) Hsent].
  split; [by apply prefix_app_r|]. split.
  - exists added. split; [done|]. eapply Forall_impl; [exact Hadded|].
    intros m [Hm|Hm]; rewrite Hm; done.
  - exists events. split; [done|]. intros params Hin.
    destruct (Hsent _ Hin) as (sent & -> & _ & Hp). by exists sent.
Qed.

(** C10 (amended).  Interactive loop: when [json.Unmarshal] decodes
    the argument text into the map (the text is a JSON object, or
    [null]) and the map has no string under [command], the call is not
    answered by an argument error: the command is the empty string,
    bash is run with it, and, as for any command that ends without error
    and prints nothing but white space, the tool message carries
    [(no output)]. *)
Theorem C10_missing_command cwd tc rest messages w args out :
  Unmarshal (tc_Arguments tc) = inl args →
  (∀ s, args !! "command" ≠ Some (AnyString s)) →
  (CombinedOutput "" (s01.cmdDir_of cwd w) (w_os w)).2 = (out, None) →
  TrimSpace out = "" →
  let w1 := (Printf (colorYellow +:+ "$ " +:+ "" +:+ colorReset +:+ newline) w).1 in
  s01.runToolCalls cwd (tc :: rest) messages w =
    s01.runToolCalls cwd rest
      (messages ++ [ToolMessage "(no output)" (tc_ID tc)])
      (Println "(no output)" (spawned "" (s01.cmdDir_of cwd w) w1)).1.
Proof.
  intros Hargs Hcommand Hrun Hout w1.
  rewrite (runToolCalls_decoded _ _ _ _ _ _ Hargs). cbv zeta.
  assert ((assert_string (args !! "command")).1 = "") as ->.
  { destruct (args !! "command") as [[]|] eqn:E; try done.
    by destruct (Hcommand s). }
  fold w1.
  assert (s01.runBashIn "" cwd w1 =
            (spawned "" (s01.cmdDir_of cwd w) w1, "(no output)")) as ->.
  { rewrite (runBashIn_allowed "" cwd w1 out None empty_command_allowed Hrun).
    cbv zeta. by rewrite Hout. }
  reflexivity.
Qed.

End Claims.

(** ** The claims at concrete inputs *)

Module Scenarios.

Import testing.

Lemma C1_malformed_arguments_witness :
  let w := start (RT := testHost) 0%nat (mock [badResp; makeTextResponse "Handled error."]) in
  let history := [UserMessage "trigger bad json"] in
  let assistantMessage :=
    {| role := assistant; content := ""; tool_calls := [badCall];
       tool_call_id := "" |} in
  (s01.agentLoop_body (RT := testHost) "system prompt" "" history w).2 =
    Continue [UserMessage "trigger bad json"; assistantMessage;
              ToolMessage "error: invalid JSON text" "bad-call"]
  ∧ (loop.Run (RT := testHost) 1 history registry_main.registry w).2 =
      Returned ([UserMessage "trigger bad json"; assistantMessage],
                Some "failed to parse tool args for bash: invalid JSON text").
Proof.
  intros w history assistantMessage. split.
  - destruct (proj1 (C1_malformed_arguments (RT := testHost) (LC := mock_Complete))
                "system prompt" "" history w badResp
                {| FinishReason := "tool_calls";
                   ch_Message := {| cm_Role := "assistant"; cm_Content := "";
                                    cm_ToolCalls := [badCall] |} |}
                [] [] badCall [] "invalid JSON text"
                eq_refl eq_refl eq_refl eq_refl eq_refl) as [Hbody _].
    rewrite Hbody. reflexivity.
  - rewrite (proj2 (C1_malformed_arguments (RT := testHost) (LC := mock_Complete))
               0%nat history registry_main.registry w badResp
               {| FinishReason := "tool_calls";
                  ch_Message := {| cm_Role := "assistant"; cm_Content := "";
                                   cm_ToolCalls := [badCall] |} |}
               [] [] badCall [] "invalid JSON text" _ _
               eq_refl eq_refl eq_refl eq_refl eq_refl eq_refl).
    reflexivity.
Defined.

(** C1 as stated fails for the registry based loop: on the response of
    the unit test, whose argument text is [{invalid json], [Run] makes
    one request, appends no tool message and returns an error to its
    caller, although a second response was ready. *)
Lemma C1_counterexample :
  let w := start (RT := testHost) 0%nat (mock [badResp; makeTextResponse "Handled error."]) in
  let r := loop.Run (RT := testHost) 5 [UserMessage "trigger bad json"]
             registry_main.registry w in
  json.Valid "{invalid json" = false
  ∧ r.2 = Returned
            ([UserMessage "trigger bad json";
              {| role := assistant; content := ""; tool_calls := [badCall];
                 tool_call_id := "" |}],
             Some "failed to parse tool args for bash: invalid JSON text")
  ∧ length (filter (λ e, is_complete e = true) (w_trace r.1)) = 1%nat
  ∧ calls (w_llm r.1) = 1%nat.
Proof. vm_compute. repeat split. Qed.

Lemma C2_safety_gate_witness :
  let w := start (RT := testHost) 0%nat ErrorLLMClient in
  s01.runBashIn (RT := testHost) "sudo ls" "" w =
    (w, "Error: Dangerous command blocked")
  ∧ (registry_main.bashHandler (RT := testHost) (commandArgs "sudo ls") w).1 =
      spawned (RT := testHost) "sudo ls" "" w.
Proof.
  intros w.
  destruct (C2_safety_gate (RT := testHost) "sudo ls" "" w "sudo" "" " ls")
    as [Hgate Hspawn].
  - unfold s01.dangerousPatterns. set_solver.
  - reflexivity.
  - split; [exact Hgate|]. apply Hspawn. reflexivity.
Defined.

(** C2 as stated fails for the registry based handler: the command
    [sudo ls] contains the pattern [sudo], and [bashHandler] spawns the
    subprocess and returns what it printed, not the fixed text. *)
Lemma C2_counterexample :
  let w := start (RT := testHost) 0%nat ErrorLLMClient in
  let r := registry_main.bashHandler (RT := testHost) (commandArgs "sudo ls") w in
  Contains "sudo ls" "sudo" = true
  ∧ w_trace r.1 = [EvSpawn "sudo ls" ""]
  ∧ w_os r.1 = 1%nat
  ∧ r.2 = ("exit error: exit status 127" +:+ newline
           +:+ "bash: line 1: sudo: command not found" +:+ newline, None)
  ∧ r.2.1 ≠ "Error: Dangerous command blocked".
Proof. vm_compute. repeat split. discriminate. Qed.

Lemma C3_failed_call_returns_history_witness :
  let w := start (RT := testHost) 0%nat ErrorLLMClient in
  (s01.agentLoop_from (RT := testHost) 1 "system prompt" ""
     [UserMessage "trigger error"] w).2 = Returned [UserMessage "trigger error"]
  ∧ (loop.Run (RT := testHost) 1 [UserMessage "trigger error"]
       registry_main.registry w).2 =
      Returned ([UserMessage "trigger error"],
                Some "API call failed: simulated API error").
Proof.
  intros w. split.
  - apply (proj1 (C3_failed_call_returns_history (RT := testHost)
                    (LC := error_Complete))
             0%nat "system prompt" "" [UserMessage "trigger error"] w
             "simulated API error").
    reflexivity.
  - apply (proj2 (C3_failed_call_returns_history (RT := testHost)
                    (LC := error_Complete))
             0%nat [UserMessage "trigger error"] registry_main.registry w
             "simulated API error").
    reflexivity.
Defined.


Lemma C5_output_cap_witness :
  let RT := host (prints (Repeat "x" 60000) None) in
  let w := start (RT := RT) 0%nat ErrorLLMClient in
  len (s01.runBashIn (RT := RT) "yes" "" w).2 = 50000
  ∧ len (registry_main.bashHandler (RT := RT) (commandArgs "yes") w).2.1 = 4015.
Proof.
  intros RT w. split.
  - apply (proj1 (C5_output_cap (RT := RT)) "yes" "" w (Repeat "x" 60000) None).
    + reflexivity.
    + reflexivity.
    + vm_compute. reflexivity.
  - apply (proj2 (C5_output_cap (RT := RT)) (commandArgs "yes") "yes" w
             (Repeat "x" 60000)).
    + reflexivity.
    + reflexivity.
    + vm_compute. reflexivity.
Defined.

(** C5 as stated fails in both variants.  Interactive: a process that
    prints 49,999 bytes and two line feeds has a captured output longer
    than the cap, and [runBashIn] returns 49,999 bytes.  Registry based:
    for a process that prints 4,001 bytes, [bashHandler] returns 4,015
    bytes, the marker included. *)
Lemma C5_counterexample :
  let out1 := Repeat "x" 49999 +:+ newline +:+ newline in
  let RT1 := host (prints out1 None) in
  let out2 := Repeat "x" 4001 in
  let RT2 := host (prints out2 None) in
  (50000 < len out1
   ∧ len (s01.runBashIn (RT := RT1) "yes" ""
            (start (RT := RT1) 0%nat ErrorLLMClient)).2 = 49999)
  ∧ (4000 < len out2
     ∧ len (registry_main.bashHandler (RT := RT2) (commandArgs "yes")
              (start (RT := RT2) 0%nat ErrorLLMClient)).2.1 = 4015).
Proof. vm_compute. repeat split. Qed.

Lemma C6_no_output_witness :
  let w := start (RT := testHost) 0%nat ErrorLLMClient in
  (s01.runBashIn (RT := testHost) "true" "" w).2 = "(no output)"
  ∧ (registry_main.bashHandler (RT := testHost) (commandArgs "echo hello") w).2 =
      ("hello" +:+ newline, None).
Proof.
  intros w.
  destruct (C6_no_output (RT := testHost) (L := errorLLMClient)) as (Hsentinel & _ & Hraw).
  split.
  - apply (Hsentinel "true" "" w ""); reflexivity.
  - apply (Hraw (commandArgs "echo hello") "echo hello" w).
    + reflexivity.
    + reflexivity.
    + vm_compute. discriminate.
Defined.

(** C6 as stated fails for the registry based handler: the command
    [true] ends without error and prints nothing, and [bashHandler]
    returns the empty string. *)
Lemma C6_counterexample :
  let w := start (RT := testHost) 0%nat ErrorLLMClient in
  scriptedBash "true" "" = ("", None)
  ∧ (registry_main.bashHandler (RT := testHost) (commandArgs "true") w).2 = ("", None).
Proof. vm_compute. repeat split. Qed.

Lemma C7_process_error_witness :
  let w := start (RT := testHost) 0%nat ErrorLLMClient in
  (s01.runBashIn (RT := testHost) "false" "" w).2 = "Error: exit status 1"
  ∧ (s01.runBashIn (RT := testHost) "nonexistent_command_xyz_12345" "" w).2 =
      "bash: line 1: nonexistent_command_xyz_12345: command not found"
  ∧ (registry_main.bashHandler (RT := testHost) (commandArgs "false") w).2 =
      ("exit error: exit status 1" +:+ newline, None).
Proof.
  intros w.
  destruct (C7_process_error (RT := testHost) (L := errorLLMClient))
    as (Hinteractive & Hregistry).
  split; [|split].
  - apply (Hinteractive "false" "" w "" "exit status 1"); reflexivity.
  - apply (Hinteractive "nonexistent_command_xyz_12345" "" w
             ("bash: line 1: nonexistent_command_xyz_12345: command not found"
              +:+ newline) "exit status 127").
    + reflexivity.
    + reflexivity.
    + vm_compute. discriminate.
  - apply (Hregistry (commandArgs "false") "false" w "" "exit status 1");
      reflexivity.
Defined.

(** C7 as stated fails in both variants.  Registry based: for a command
    that fails after printing a line, [bashHandler] returns the error
    text followed by that line, not the captured output.  Interactive:
    for a process that fails after printing 50,001 bytes, [runBashIn]
    returns 50,000 of them. *)
Lemma C7_counterexample :
  let w := start (RT := testHost) 0%nat ErrorLLMClient in
  let out := Repeat "x" 50001 in
  let RT := host (prints out (Some "exit status 1")) in
  (scriptedBash "nonexistent_command_xyz_12345" "" =
     ("bash: line 1: nonexistent_command_xyz_12345: command not found" +:+ newline,
      Some "exit status 127")
   ∧ (registry_main.bashHandler (RT := testHost)
        (commandArgs "nonexistent_command_xyz_12345") w).2.1 =
       "exit error: exit status 127" +:+ newline
       +:+ "bash: line 1: nonexistent_command_xyz_12345: command not found"
       +:+ newline)
  ∧ (len (TrimSpaceAscii out) = 50001
     ∧ len (s01.runBashIn (RT := RT) "yes" ""
              (start (RT := RT) 0%nat ErrorLLMClient)).2 = 50000).
Proof. vm_compute. repeat split. Qed.

Lemma C8_register_overwrites_witness :
  let second : Handler (RT := testHost) errorLLMClient :=
    λ _, mret ("second", None) in
  let w := start (RT := testHost) 0%nat ErrorLLMClient in
  Dispatch (Register (Register New registry_main.bashToolDef registry_main.bashHandler)
               registry_main.bashToolDef second)
    "bash" (commandArgs "true") = second (commandArgs "true")
  ∧ Dispatch (RT := testHost) registry_main.registry "python" ∅ w =
      (w, ("", Some "unknown tool: python")).
Proof.
  intros second w.
  destruct (C8_register_overwrites (RT := testHost) (L := errorLLMClient))
    as (Hlast & Hunknown).
  split.
  - apply (Hlast New registry_main.bashToolDef registry_main.bashHandler []
             registry_main.bashToolDef second [] "bash" (commandArgs "true")).
    + reflexivity.
    + reflexivity.
    + constructor.
  - apply (Hunknown [(registry_main.bashToolDef, registry_main.bashHandler)]
             "python" ∅ w).
    constructor; [discriminate|constructor].
Defined.

Lemma C9_system_prompt_not_persisted_witness :
  let w := start (RT := testHost) 0%nat
             (mock [makeToolCallResponse "call-1" "echo hello";
                    makeTextResponse "The output is: hello"]) in
  let history := [UserMessage "run echo hello"] in
  let returned :=
    [UserMessage "run echo hello";
     {| role := assistant; content := "";
        tool_calls :=
          [bashCall "call-1" ("{" +:+ Quote "command" +:+ ":" +:+ Quote "echo hello" +:+ "}")];
        tool_call_id := "" |};
     ToolMessage "hello" "call-1";
     {| role := assistant; content := "The output is: hello"; tool_calls := [];
        tool_call_id := "" |}] in
  (s01.agentLoop (RT := testHost) 5 "system prompt" history [] w).2 = Returned returned
  ∧ history `prefix_of` returned
  ∧ ∃ added, returned = history ++ added ∧ Forall (λ m, role m ≠ system) added.
Proof.
  intros w history returned.
  assert ((s01.agentLoop (RT := testHost) 5 "system prompt" history [] w).2 =
            Returned returned) as Hret by reflexivity.
  split; [exact Hret|].
  destruct (C9_system_prompt_not_persisted (RT := testHost) (LC := mock_Complete)
              5 "system prompt" history [] w returned Hret)
    as (Hprefix & Hadded & _).
  by split.
Defined.

Lemma C10_missing_command_witness :
  let w := start (RT := testHost) 0%nat ErrorLLMClient in
  let history := [UserMessage "run something"] in
  s01.runToolCalls (RT := testHost) "" [bashCall "call-1" "{}"] history w =
    ((Println "(no output)"
        (spawned (RT := testHost) "" "/work"
           (Printf (colorYellow +:+ "$ " +:+ "" +:+ colorReset +:+ newline) w).1)).1,
     history ++ [ToolMessage "(no output)" "call-1"]).
Proof.
  intros w history.
  rewrite (C10_missing_command (RT := testHost) "" (bashCall "call-1" "{}") []
             history w ∅ "").
  - reflexivity.
  - reflexivity.
  - intros s. by rewrite lookup_empty.
  - reflexivity.
  - reflexivity.
Defined.

(** C10 as stated fails on argument texts that are well-formed JSON
    but not an object: the text [[]] is rejected by [json.Unmarshal]
    for the map target, the call is answered by an argument error and
    bash is not run. *)
Lemma C10_counterexample :
  let w := start (RT := testHost) 0%nat ErrorLLMClient in
  let history := [UserMessage "run something"] in
  let r := s01.runToolCalls (RT := testHost) "" [bashCall "call-1" "[]"] history w in
  json.Valid "[]" = true
  ∧ r.2 = history ++
            [ToolMessage
               "error: json: cannot unmarshal array into Go value of type map[string]interface {}"
               "call-1"]
  ∧ w_trace r.1 = []
  ∧ w_os r.1 = 0%nat.
Proof. vm_compute. repeat split. Qed.

End Scenarios.

(** * Further properties of the code *)

(** ** Package [tools] *)

Section RegistryFacts.

Context {RT : Runtime} {L : Type} {LC : LLMClient L}.

Implicit Types (w : World L) (messages : list Message) (tc : ToolCall)
  (r registry : Registry L) (handler : Handler L)
  (tools : list (ChatCompletionToolParam * Handler L)).

Lemma RegisterAll_snoc r tools def handler :
  RegisterAll r (tools ++ [(def, handler)]) = Register (RegisterAll r tools) def handler.
Proof. unfold RegisterAll. by rewrite foldl_app. Qed.

(** X1.  [Definitions] lists the registered definitions in the order of
    their registration, and keeps every one of them: a definition
    registered again under a name already present is listed a second
    time. *)
Theorem Definitions_registration_order r tools :
  Definitions (RegisterAll r tools) = Definitions r ++ tools.*1.
Proof.
  revert r. induction tools as [|[def handler] tools IH]; intros r.
  - by rewrite app_nil_r.
  - unfold RegisterAll in *. cbn [foldl fmap list_fmap fst].
    rewrite IH, Definitions_Register, <- app_assoc. reflexivity.
Qed.

Lemma Dispatch_Register_other r def handler name args :
  fn_Name def ≠ name →
  Dispatch (Register r def handler) name args = Dispatch r name args.
Proof.
  intros Hne.
  assert (handlers (Register r def handler) !! name = handlers r !! name) as E.
  { by rewrite handlers_Register, decide_False. }
  unfold Dispatch. unfold Handler in *. by rewrite E.
Qed.

(** X2.  In a registry built by registrations from the empty one, the
    names that [Dispatch] knows are exactly the names of the listed
    definitions: a listed name is dispatched to a handler that was
    registered under it, any other name yields the error
    [unknown tool: NAME] without touching the world. *)
Theorem Dispatch_known_iff_listed tools name args :
  (name ∈ fn_Name <$> Definitions (RegisterAll New tools) →
     ∃ def handler,
       (def, handler) ∈ tools ∧ fn_Name def = name
       ∧ Dispatch (RegisterAll New tools) name args = handler args)
  ∧ (name ∉ fn_Name <$> Definitions (RegisterAll New tools) →
       ∀ w, Dispatch (RegisterAll New tools) name args w =
              (w, ("", Some ("unknown tool: " +:+ name)))).
Proof.
  rewrite Definitions_registration_order. cbn [Definitions New definitions app].
  induction tools as [|[def handler] tools IH] using rev_ind.
  - split; [by intros ?%elem_of_nil|]. intros _ w. by apply Dispatch_unknown.
  - rewrite RegisterAll_snoc, !fmap_app. cbn [fmap list_fmap fst].
    destruct (decide (fn_Name def = name)) as [Heq|Hne].
    + split.
      * intros _. exists def, handler. split.
        { apply elem_of_app. right. by apply list_elem_of_singleton. }
        split; [done|].
        apply Dispatch_registered. rewrite handlers_Register.
        by rewrite decide_True.
      * intros Hnot. destruct Hnot. apply elem_of_app. right.
        by apply list_elem_of_singleton.
    + destruct IH as [IHin IHout]. rewrite Dispatch_Register_other by done.
      split.
      * intros Hin. apply elem_of_app in Hin as [Hin|Hin].
        -- destruct (IHin Hin) as (def' & handler' & Hin' & Hname & Hd).
           exists def', handler'. split; [|done].
           apply elem_of_app. by left.
        -- apply list_elem_of_singleton in Hin. by destruct Hne.
      * intros Hnot w. apply IHout. intros Hin. apply Hnot.
        apply elem_of_app. by left.
Qed.

End RegistryFacts.

(** ** The registry based loop *)

Section RunFacts.

Context {RT : Runtime} {L : Type} {LC : LLMClient L}.

Implicit Types (w : World L) (messages : list Message) (tc : ToolCall)
  (r registry : Registry L) (handler : Handler L).

(** X3.  The tool loop of [Run] answers a prefix of the requested calls,
    in request order, each answer carrying the id of its call.  It
    answers them all when it ends without error; when it ends with an
    error, the first call left unanswered is one whose argument text
    [json.Unmarshal] rejects, the error is
    [failed to parse tool args for NAME: ...] for that call, and no later
    call is answered. *)
Theorem Run_tool_loop_answers_prefix registry toolCalls messages w :
  ∃ results,
    (loop.runToolCalls registry toolCalls messages w).2.1 = messages ++ results
    ∧ tool_call_id <$> results = take (length results) (tc_ID <$> toolCalls)
    ∧ Forall (λ m, role m = tool) results
    ∧ match (loop.runToolCalls registry toolCalls messages w).2.2 with
      | None => length results = length toolCalls
      | Some e =>
          ∃ tc err,
            toolCalls !! length results = Some tc
            ∧ Unmarshal (tc_Arguments tc) = inr err
            ∧ e = "failed to parse tool args for " +:+ tc_Name tc +:+ ": " +:+ err
      end.
Proof.
  revert messages w. induction toolCalls as [|tc rest IH]; intros messages w.
  - exists []. rewrite Run_runToolCalls_nil, app_nil_r. by repeat split.
  - destruct (Unmarshal (tc_Arguments tc)) as [args|err] eqn:E.
    + rewrite (Run_runToolCalls_decoded _ _ _ _ _ _ E). cbv zeta.
      match goal with
      | |- context [loop.runToolCalls registry rest ?m ?w'] =>
          destruct (IH m w') as (results & Hm & Hids & Hroles & Hend)
      end.
      eexists (_ :: results). rewrite Hm, <- app_assoc.
      split; [reflexivity|]. cbn [length take fmap list_fmap].
      split; [by rewrite <- Hids|]. split; [by constructor|].
      destruct (loop.runToolCalls _ _ _ _).2.2 as [e|]; [|by rewrite Hend].
      exact Hend.
    + rewrite (Run_runToolCalls_error _ _ _ _ _ _ E). exists [].
      rewrite app_nil_r. cbn [fst snd length take fmap list_fmap].
      split; [done|]. split; [done|]. split; [done|]. by exists tc, err.
Qed.

(** X4.  In the tool loop of [Run], a call with decodable arguments that
    names a tool that is not registered is answered by the tool message
    [error: unknown tool: NAME] with the id of the call; nothing else
    happens in the world, and the loop goes on with the next call. *)
Theorem Run_unknown_tool_recovered registry tc rest messages w args :
  Unmarshal (tc_Arguments tc) = inl args →
  handlers registry !! tc_Name tc = None →
  loop.runToolCalls registry (tc :: rest) messages w =
    loop.runToolCalls registry rest
      (messages ++ [ToolMessage ("error: unknown tool: " +:+ tc_Name tc) (tc_ID tc)])
      w.
Proof.
  intros Hargs Hunknown.
  rewrite (Run_runToolCalls_decoded _ _ _ _ _ _ Hargs). cbv zeta.
  by rewrite (Dispatch_unknown _ _ _ _ Hunknown).
Qed.

(** X5.  With the registry of the registry based [main], a call of
    [bash] whose decoded arguments hold no string under [command] is
    answered by the tool message [error: command must be a string]; no
    subprocess is spawned for it, and the loop goes on with the next
    call. *)
Theorem Run_bash_command_not_string tc rest messages w args :
  tc_Name tc = "bash" →
  Unmarshal (tc_Arguments tc) = inl args →
  (∀ s, args !! "command" ≠ Some (AnyString s)) →
  loop.runToolCalls registry_main.registry (tc :: rest) messages w =
    loop.runToolCalls registry_main.registry rest
      (messages ++ [ToolMessage "error: command must be a string" (tc_ID tc)]) w.
Proof.
  intros Hname Hargs Hcommand.
  rewrite (Run_runToolCalls_decoded _ _ _ _ _ _ Hargs). cbv zeta.
  rewrite Hname.
  rewrite (Dispatch_registered registry_main.registry "bash"
             registry_main.bashHandler args) by reflexivity.
  rewrite bashHandler_not_string; [done|].
  destruct (args !! "command") as [[]|] eqn:E; try done.
  by destruct (Hcommand s).
Qed.

(** What one pass through the body of [Run] does to the history, and
    which errors it can end with. *)
Lemma Run_body_spec messages registry w :
  match (loop.Run_body messages registry w).2 with
  | Continue h =>
      ∃ added, h = messages ++ added
               ∧ Forall (λ m, role m = assistant ∨ role m = tool) added
  | Break (Returned (h, e)) =>
      (∃ added, h = messages ++ added
                ∧ Forall (λ m, role m = assistant ∨ role m = tool) added)
      ∧ match e with
        | None => True
        | Some e =>
            (∃ err, e = "API call failed: " +:+ err)
            ∨ (∃ name err, e = "failed to parse tool args for " +:+ name
                               +:+ ": " +:+ err)
        end
  | Break _ => True
  end.
Proof.
  destruct (Complete (w_llm w) (loop.params_of messages registry)).2
    as [resp|err] eqn:Hc.
  - unfold loop.Run_body, mbind, IO_bind, mret, IO_ret.
    rewrite complete_eq, Hc.
    destruct (Choices resp) as [|choice others]; [done|].
    destruct (negb _).
    + cbn [snd]. split; [|done].
      exists [ToParam (ch_Message choice)]. split; [done|].
      by repeat constructor; left.
    + destruct (Run_tool_loop_answers_prefix registry
                  (cm_ToolCalls (ch_Message choice))
                  (messages ++ [ToParam (ch_Message choice)])
                  (completed (loop.params_of messages registry) w))
        as (results & Hm & _ & Hroles & Hend).
      destruct (loop.runToolCalls _ _ _ _) as [w' [h [e|]]];
        cbn [fst snd] in *; subst h.
      * split.
        -- exists (ToParam (ch_Message choice) :: results).
           rewrite <- app_assoc. split; [done|].
           constructor; [by left|]. eapply Forall_impl; [exact Hroles|]. by right.
        -- destruct Hend as (tc & err & _ & _ & ->). right. by exists (tc_Name tc), err.
      * exists (ToParam (ch_Message choice) :: results).
        rewrite <- app_assoc. split; [done|].
        constructor; [by left|]. eapply Forall_impl; [exact Hroles|]. by right.
  - rewrite (Run_body_failed _ _ _ _ Hc). cbn [snd]. split.
    + exists []. by rewrite app_nil_r.
    + left. by exists err.
Qed.

Lemma Run_spec fuel messages registry w h e :
  (loop.Run fuel messages registry w).2 = Returned (h, e) →
  (∃ added, h = messages ++ added
            ∧ Forall (λ m, role m = assistant ∨ role m = tool) added)
  ∧ match e with
    | None => True
    | Some e =>
        (∃ err, e = "API call failed: " +:+ err)
        ∨ (∃ name err, e = "failed to parse tool args for " +:+ name
                           +:+ ": " +:+ err)
    end.
Proof.
  revert messages w. induction fuel as [|fuel IH]; intros messages w; [done|].
  rewrite Run_S. pose proof (Run_body_spec messages registry w) as Hbody.
  destruct (loop.Run_body messages registry w).2 as [messages'|o].
  - destruct Hbody as (added & -> & Hadded). intros Hret.
    destruct (IH _ _ Hret) as [(added' & -> & Hadded') He]. split; [|done].
    exists (added ++ added'). rewrite app_assoc. split; [done|].
    by apply Forall_app.
  - cbn [snd]. intros ->. exact Hbody.
Qed.

(** X6.  [Run] only appends: whenever it returns, with or without an
    error, the history it was given is a prefix of the history it
    returns, and what was appended holds assistant and tool messages
    only. *)
Theorem Run_appends_only fuel messages registry w h e :
  (loop.Run fuel messages registry w).2 = Returned (h, e) →
  messages `prefix_of` h
  ∧ ∃ added, h = messages ++ added
             ∧ Forall (λ m, role m = assistant ∨ role m = tool) added.
Proof.
  intros Hret. destruct (Run_spec _ _ _ _ _ _ Hret) as [(added & -> & Hadded) _].
  split; [by apply prefix_app_r|]. by exists added.
Qed.

(** X7.  The only errors [Run] returns to its caller are those of a
    failed model call, [API call failed: ...], and of undecodable tool
    arguments, [failed to parse tool args for NAME: ...]: an unknown tool
    or a failing handler never ends the loop with an error. *)
Theorem Run_error_kinds fuel messages registry w h e :
  (loop.Run fuel messages registry w).2 = Returned (h, Some e) →
  (∃ err, e = "API call failed: " +:+ err)
  ∨ (∃ name err, e = "failed to parse tool args for " +:+ name +:+ ": " +:+ err).
Proof.
  intros Hret. by destruct (Run_spec _ _ _ _ _ _ Hret) as [_ He].
Qed.

End RunFacts.

(** ** The bash tool and the interactive loop *)

Section InteractiveFacts.

Context {RT : Runtime} {L : Type} {LC : LLMClient L}.

Implicit Types (w : World L) (messages : list Message) (tc : ToolCall)
  (command dir : string).

(** X8.  Whatever the command and whatever the process does, the text
    that [runBashIn] returns is at most 50,000 bytes long. *)
Theorem runBashIn_at_most_cap command dir w :
  len (s01.runBashIn command dir w).2 ≤ 50000.
Proof.
  destruct (existsb (Contains command) s01.dangerousPatterns) eqn:Hgate.
  { rewrite (runBashIn_blocked _ _ _ Hgate). by cbn. }
  destruct (CombinedOutput command (s01.cmdDir_of dir w) (w_os w)).2
    as [out err] eqn:Hrun.
  rewrite (runBashIn_allowed _ _ _ _ _ Hgate Hrun). cbn [snd]. cbv zeta.
  set (r1 := match err with Some _ => _ | None => _ end).
  set (r2 := if (r1 =? "")%string then _ else _).
  destruct (50000 <? len r2) eqn:Hlong.
  - apply Z.ltb_lt in Hlong. rewrite len_slice_to; lia.
  - by apply Z.ltb_ge in Hlong.
Qed.

(** X9.  A command in which none of the five patterns occurs is run:
    [runBashIn] spawns exactly one subprocess, with the command as it
    was given, in the directory [dir], or in the working directory of
    the process when [dir] is empty. *)
Theorem runBashIn_runs_allowed command dir w :
  (∀ pattern before after,
      pattern ∈ s01.dangerousPatterns → command ≠ before +:+ pattern +:+ after) →
  (s01.runBashIn command dir w).1 =
    spawned command (if (dir =? "")%string then Getwd (w_os w) else dir) w
  ∧ w_trace (s01.runBashIn command dir w).1 =
      w_trace w ++ [EvSpawn command (if (dir =? "")%string then Getwd (w_os w) else dir)].
Proof.
  intros Hfree.
  assert (existsb (Contains command) s01.dangerousPatterns = false) as Hgate.
  { apply not_true_is_false. intros Hex.
    apply existsb_exists in Hex as (pattern & Hin & Hc).
    apply Contains_spec in Hc as (before & after & Heq).
    apply (Hfree pattern before after); [|done]. by apply list_elem_of_In. }
  destruct (CombinedOutput command (s01.cmdDir_of dir w) (w_os w)).2
    as [out err] eqn:Hrun.
  rewrite (runBashIn_allowed _ _ _ _ _ Hgate Hrun). cbn [fst].
  unfold s01.cmdDir_of. by destruct (dir =? "")%string.
Qed.

(** X10.  In the interactive loop, a call whose decoded command contains
    a pattern of the denylist is answered by the tool message
    [Error: Dangerous command blocked] with the id of the call; the
    command is echoed and the answer previewed on standard output, no
    subprocess is spawned, and the loop goes on with the next call. *)
Theorem runToolCalls_blocked_command cwd tc rest messages w args command
    pattern before after :
  Unmarshal (tc_Arguments tc) = inl args →
  args !! "command" = Some (AnyString command) →
  pattern ∈ s01.dangerousPatterns →
  command = before +:+ pattern +:+ after →
  s01.runToolCalls cwd (tc :: rest) messages w =
    s01.runToolCalls cwd rest
      (messages ++ [ToolMessage "Error: Dangerous command blocked" (tc_ID tc)])
      {| w_os := w_os w; w_llm := w_llm w;
         w_trace :=
           w_trace w
           ++ [EvStdout (colorYellow +:+ "$ " +:+ command +:+ colorReset +:+ newline);
               EvStdout ("Error: Dangerous command blocked" +:+ newline)] |}.
Proof.
  intros Hargs Hcommand Hpat Heq.
  rewrite (runToolCalls_decoded _ _ _ _ _ _ Hargs). cbv zeta.
  rewrite Hcommand. cbn [assert_string fst].
  rewrite runBashIn_blocked.
  2:{ apply existsb_exists. exists pattern. split; [by apply list_elem_of_In|].
      apply Contains_spec. by exists before, after. }
  cbn [fst snd]. unfold Println, Printf, emit. cbn [fst w_os w_llm w_trace].
  rewrite <- app_assoc. reflexivity.
Qed.

(** X11.  [bashHandler] returns an error exactly when its arguments hold
    no string under [command], and then spawns nothing; a process that
    fails is reported in the returned text, with no error.  The text
    returned for a process that ends without error is at most 4,015
    bytes long. *)
Theorem bashHandler_error_iff_not_string (args : gmap string any) w :
  ((registry_main.bashHandler args w).2.2 = None
     ↔ ∃ command, args !! "command" = Some (AnyString command))
  ∧ ((∀ command, args !! "command" ≠ Some (AnyString command)) →
       registry_main.bashHandler args w = (w, ("", Some "command must be a string")))
  ∧ (∀ command out,
       args !! "command" = Some (AnyString command) →
       (CombinedOutput command "" (w_os w)).2 = (out, None) →
       len (registry_main.bashHandler args w).2.1 ≤ 4015).
Proof.
  split; [|split].
  - split.
    + intros Hnone. destruct (args !! "command") as [[| | |command| |]|] eqn:E;
        try (rewrite bashHandler_not_string in Hnone by (by rewrite E); done).
      by exists command.
    + intros [command Hc].
      destruct (CombinedOutput command "" (w_os w)).2 as [out err] eqn:Hrun.
      by rewrite (bashHandler_string _ _ _ _ _ Hc Hrun).
  - intros Hnot. apply bashHandler_not_string.
    destruct (args !! "command") as [[]|] eqn:E; try done.
    by destruct (Hnot s).
  - intros command out Hc Hrun.
    rewrite (bashHandler_string _ _ _ _ _ Hc Hrun). cbn [fst snd].
    destruct (4000 <? len out) eqn:Hlong.
    + apply Z.ltb_lt in Hlong. rewrite len_app, len_slice_to by lia.
      change (len (newline +:+ "...(truncated)")) with 15. lia.
    + apply Z.ltb_ge in Hlong. lia.
Qed.

End InteractiveFacts.

(** ** The interactive loop on the mock client of the unit tests *)

Section MockFacts.

Import testing.

Context {RT : Runtime}.

Implicit Types (w : World mockLLMClient) (messages : list Message).

Lemma mock_Complete_ok (m : mockLLMClient) params resp :
  responses m !! calls m = Some resp →
  Complete m params = ({| responses := responses m; calls := S (calls m) |}, inl resp).
Proof. intros H. unfold Complete, mock_Complete. by rewrite H. Qed.

Lemma mock_Complete_inv (m : mockLLMClient) params :
  match (Complete m params).2 with
  | inl resp =>
      responses m !! calls m = Some resp
      ∧ (Complete m params).1 = {| responses := responses m; calls := S (calls m) |}
  | inr _ => (Complete m params).1 = m
  end.
Proof.
  unfold Complete, mock_Complete. by destruct (responses m !! calls m).
Qed.

(** X12.  On the mock client the interactive loop always ends: with more
    fuel than the mock has responses left, it returns or panics, and so
    it makes at most one call more than there are responses left. *)
Theorem agentLoop_mock_terminates fuel system cwd messages w :
  (length (responses (w_llm w)) - calls (w_llm w) < fuel)%nat →
  (s01.agentLoop_from fuel system cwd messages w).2 ≠ OutOfFuel.
Proof.
  revert messages w. induction fuel as [|fuel IH]; intros messages w Hfuel; [lia|].
  rewrite agentLoop_from_S.
  pose proof (mock_Complete_inv (w_llm w) (s01.params_of system messages)) as Hmock.
  destruct (Complete (w_llm w) (s01.params_of system messages)).2
    as [resp|err] eqn:Hc.
  - destruct Hmock as [Hlookup Hstate].
    destruct (Choices resp) as [|choice others] eqn:Hch.
    { by rewrite (agentLoop_body_panic _ _ _ _ _ Hc Hch). }
    destruct (decide (FinishReason choice = "tool_calls")) as [Hf|Hf].
    + rewrite (agentLoop_body_tools _ _ _ _ _ _ _ Hc Hch Hf). cbv zeta.
      cbn [fst snd]. apply IH.
      destruct (runToolCalls_spec cwd (cm_ToolCalls (ch_Message choice))
                  (messages ++ [ToParam (ch_Message choice)])
                  (completed (s01.params_of system messages) w))
        as (_ & _ & _ & _ & _ & -> & _).
      cbn [completed w_llm]. rewrite Hstate. cbn [responses calls].
      apply lookup_lt_Some in Hlookup. lia.
    + by rewrite (agentLoop_body_final _ _ _ _ _ _ _ Hc Hch Hf).
  - by rewrite (agentLoop_body_failed _ _ _ _ _ Hc).
Qed.

(** X13.  A scripted session: when the next responses of the mock are
    [n] responses made by [makeToolCallResponse] followed by one made by
    [makeTextResponse], the loop, given more fuel than [n], returns a
    history that is [2 * n + 1] messages longer than the one it was
    given and ends with the assistant message of the final text, after
    exactly [n + 1] calls of the mock; this holds whatever the commands
    are and whatever the tool does with them. *)
Theorem agentLoop_scripted_session (turns : list (string * string)) text
    answered later fuel system cwd messages w :
  responses (w_llm w) =
    answered ++ (uncurry makeToolCallResponse <$> turns)
    ++ makeTextResponse text :: later →
  calls (w_llm w) = length answered →
  (length turns < fuel)%nat →
  ∃ h,
    (s01.agentLoop_from fuel system cwd messages w).2 = Returned h
    ∧ length h = (length messages + (2 * length turns + 1))%nat
    ∧ last h = Some {| role := assistant; content := text; tool_calls := [];
                       tool_call_id := "" |}
    ∧ messages `prefix_of` h
    ∧ calls (w_llm (s01.agentLoop_from fuel system cwd messages w).1) =
        (length answered + length turns + 1)%nat.
Proof.
  revert answered fuel messages w.
  induction turns as [|[id command] turns IH];
    intros answered fuel messages w Hresp Hcalls Hfuel.
  - destruct fuel as [|fuel]; [cbn in Hfuel; lia|]. cbn [fmap list_fmap app] in Hresp.
    assert (responses (w_llm w) !! calls (w_llm w) = Some (makeTextResponse text))
      as Hlookup.
    { rewrite Hresp, Hcalls. by rewrite list_lookup_middle. }
    pose proof (mock_Complete_ok _ (s01.params_of system messages) _ Hlookup) as Hc.
    rewrite agentLoop_from_S.
    rewrite (agentLoop_body_final system cwd messages w (makeTextResponse text)
               _ [] (f_equal snd Hc) eq_refl) by done.
    cbn [fst snd]. eexists. split; [reflexivity|].
    split; [rewrite length_app; cbn; lia|].
    split; [by rewrite last_snoc|]. split; [by apply prefix_app_r|].
    cbn [completed w_llm]. rewrite Hc. cbn. lia.
  - destruct fuel as [|fuel]; [cbn in Hfuel; lia|].
    cbn [fmap list_fmap app uncurry] in Hresp.
    assert (responses (w_llm w) !! calls (w_llm w) =
              Some (makeToolCallResponse id command)) as Hlookup.
    { rewrite Hresp, Hcalls. by rewrite list_lookup_middle. }
    pose proof (mock_Complete_ok _ (s01.params_of system messages) _ Hlookup) as Hc.
    rewrite agentLoop_from_S.
    rewrite (agentLoop_body_tools system cwd messages w
               (makeToolCallResponse id command) _ [] (f_equal snd Hc) eq_refl eq_refl).
    cbv zeta. cbn [fst snd].
    match goal with
    | |- context [s01.runToolCalls cwd ?tcs ?m ?w0] =>
        destruct (runToolCalls_spec cwd tcs m w0)
          as (results & events & Hm & Hids & _ & Hllm & _);
        set (r := s01.runToolCalls cwd tcs m w0) in *
    end.
    assert (length results = 1%nat) as Hlen.
    { by rewrite <- (length_fmap tool_call_id), Hids. }
    destruct (IH (answered ++ [makeToolCallResponse id command]) fuel r.2 r.1)
      as (h & Hret & Hlenh & Hlast & Hprefix & Hcount).
    + rewrite Hllm. cbn [completed w_llm]. rewrite Hc. cbn [fst responses].
      rewrite Hresp, <- app_assoc. reflexivity.
    + rewrite Hllm. cbn [completed w_llm]. rewrite Hc. cbn [fst calls].
      rewrite Hcalls, length_app. cbn. lia.
    + cbn [length] in Hfuel. lia.
    + exists h. split; [exact Hret|].
      rewrite Hm, !length_app in Hlenh. cbn [length] in Hlenh |- *.
      split; [lia|]. split; [done|]. split.
      * etrans; [|exact Hprefix]. rewrite Hm, <- app_assoc. by apply prefix_app_r.
      * rewrite Hcount, length_app. cbn [length]. lia.
Qed.

End MockFacts.

(** ** The read-eval-print loop *)

Section MainLoopFacts.

Context {RT : Runtime} {L : Type} {LC : LLMClient L}.

Implicit Types (w : World L) (history messages : list Message)
  (lines : list string).

Lemma main_loop_nil fuel system history w :
  s01_main.main_loop fuel system [] history w =
    ((Printf (colorCyan +:+ "s01 >> " +:+ colorReset) w).1, Returned history).
Proof. reflexivity. Qed.

Lemma main_loop_cons fuel system line rest history w :
  s01_main.main_loop fuel system (line :: rest) history w =
    let w1 := (Printf (colorCyan +:+ "s01 >> " +:+ colorReset) w).1 in
    if s01_main.isQuit (TrimSpace line) then (w1, Returned history)
    else
      let r := s01.agentLoop fuel system
                 (history ++ [UserMessage (TrimSpace line)]) [] w1 in
      match r.2 with
      | Returned h =>
          match last h with
          | None => (r.1, Panicked "index out of range [-1]")
          | Some lastMessage =>
              s01_main.main_loop fuel system rest h
                (Println "" (s01_main.printReply lastMessage r.1).1).1
          end
      | Panicked reason => (r.1, Panicked reason)
      | OutOfFuel => (r.1, OutOfFuel)
      end.
Proof.
  cbn [s01_main.main_loop]. unfold mbind, IO_bind, mret, IO_ret.
  unfold Printf at 1. unfold emit at 1. cbv zeta. cbn [fst].
  unfold Printf, emit. cbn [fst].
  destruct (s01_main.isQuit (TrimSpace line)); [done|].
  destruct (s01.agentLoop _ _ _ _ _) as [w2 [h|reason|]]; cbn [fst snd]; try done.
  destruct (last h) as [lastMessage|]; [|done].
  destruct (s01_main.printReply lastMessage w2) as [w3 []]. cbn [fst].
  unfold Println, emit. reflexivity.
Qed.

(** X14.  The loop stops at the first line that, once trimmed, is empty,
    [q] or [exit]: the lines after it are not read, and the run is the
    one of a standard input that ends before that line. *)
Theorem main_loop_stops_at_quit fuel system before line after history w :
  s01_main.isQuit (TrimSpace line) = true →
  s01_main.main_loop fuel system (before ++ line :: after) history w =
    s01_main.main_loop fuel system before history w.
Proof.
  intros Hquit. revert history w.
  induction before as [|first before IH]; intros history w.
  - cbn [app]. rewrite main_loop_cons, main_loop_nil. cbv zeta. by rewrite Hquit.
  - rewrite <- app_comm_cons, !main_loop_cons. cbv zeta.
    destruct (s01_main.isQuit (TrimSpace first)); [done|].
    destruct (s01.agentLoop _ _ _ _ _).2 as [h|reason|]; try done.
    destruct (last h); [|done]. apply IH.
Qed.

(** The only panic of [agentLoop] is the one of [resp.Choices[0]]. *)
Lemma agentLoop_from_panic fuel system cwd messages w reason :
  (s01.agentLoop_from fuel system cwd messages w).2 = Panicked reason →
  reason = "index out of range [0] with length 0".
Proof.
  revert messages w. induction fuel as [|fuel IH]; intros messages w; [done|].
  rewrite agentLoop_from_S.
  destruct (Complete (w_llm w) (s01.params_of system messages)).2
    as [resp|err] eqn:Hc.
  - destruct (Choices resp) as [|choice others] eqn:Hch.
    { rewrite (agentLoop_body_panic _ _ _ _ _ Hc Hch). cbn [fst snd].
      intros H. by simplify_eq. }
    destruct (decide (FinishReason choice = "tool_calls")) as [Hf|Hf].
    + rewrite (agentLoop_body_tools _ _ _ _ _ _ _ Hc Hch Hf). cbv zeta.
      cbn [fst snd]. apply IH.
    + by rewrite (agentLoop_body_final _ _ _ _ _ _ _ Hc Hch Hf).
  - by rewrite (agentLoop_body_failed _ _ _ _ _ Hc).
Qed.

(** X15.  The index expression [history[len(history)-1]] of the loop
    never goes out of range: the history that [agentLoop] returns holds
    at least the query of the turn.  The only panic the loop can end
    with is the one of [agentLoop] on a response without choices. *)
Theorem main_loop_index_in_range fuel system lines history w reason :
  (s01_main.main_loop fuel system lines history w).2 = Panicked reason →
  reason = "index out of range [0] with length 0".
Proof.
  revert history w. induction lines as [|line rest IH]; intros history w.
  - by rewrite main_loop_nil.
  - rewrite main_loop_cons. cbv zeta.
    destruct (s01_main.isQuit (TrimSpace line)); [done|].
    match goal with
    | |- context [s01.agentLoop fuel system ?m [] ?w1] =>
        destruct (agentLoop_from_spec fuel system "" m w1) as (events & _ & Hspec);
        pose proof (agentLoop_from_panic fuel system "" m w1) as Hpanic;
        change (s01.agentLoop_from fuel system "" m w1)
          with (s01.agentLoop fuel system m [] w1) in *;
        destruct (s01.agentLoop fuel system m [] w1).2 as [h|reason'|] eqn:Hret
    end.
    + destruct (Hspec h eq_refl) as [(added & -> & _) _].
      destruct (last _) eqn:Hlast.
      * apply IH.
      * apply last_None in Hlast. by destruct history.
    + cbn [snd]. intros H. simplify_eq. by apply Hpanic.
    + done.
Qed.

Lemma filter_user_added (added : list Message) :
  Forall (λ m, role m = assistant ∨ role m = tool) added →
  filter (λ m, role m = user) added = [].
Proof.
  induction 1 as [|m added Hm _ IH]; [done|].
  rewrite filter_cons, IH. destruct (decide (role m = user)) as [Hu|]; [|done].
  destruct Hm as [Hm|Hm]; rewrite Hu in Hm; discriminate.
Qed.

(** X16.  The history is kept across the turns and only grows.  When
    the loop is left, the user messages of the history are those it
    started with followed by one message per query handled, in the order
    the queries were typed, each holding the trimmed line; this includes
    the queries whose turn ended with a failed model call. *)
Theorem main_loop_history fuel system lines history w h :
  (s01_main.main_loop fuel system lines history w).2 = Returned h →
  history `prefix_of` h
  ∧ filter (λ m, role m = user) h =
      filter (λ m, role m = user) history
      ++ (UserMessage <$> s01_main.queries lines).
Proof.
  revert history w. induction lines as [|line rest IH]; intros history w.
  - rewrite main_loop_nil. cbn [snd s01_main.queries fmap list_fmap].
    intros H. simplify_eq. by rewrite app_nil_r.
  - rewrite main_loop_cons. cbv zeta. cbn [s01_main.queries].
    destruct (s01_main.isQuit (TrimSpace line)).
    { cbn [snd fmap list_fmap]. intros H. simplify_eq. by rewrite app_nil_r. }
    match goal with
    | |- context [s01.agentLoop fuel system ?m [] ?w1] =>
        destruct (agentLoop_from_spec fuel system "" m w1) as (events & _ & Hspec);
        change (s01.agentLoop_from fuel system "" m w1)
          with (s01.agentLoop fuel system m [] w1) in *;
        destruct (s01.agentLoop fuel system m [] w1).2 as [h'|reason'|] eqn:Hret
    end; [|done..].
    destruct (Hspec h' eq_refl) as [(added & -> & Hadded) _].
    destruct (last _); [|done]. intros Hloop.
    destruct (IH _ _ Hloop) as [Hprefix Husers]. split.
    + etrans; [|exact Hprefix]. rewrite <- app_assoc. by apply prefix_app_r.
    + rewrite Husers, !filter_app, (filter_user_added _ Hadded), app_nil_r.
      rewrite fmap_cons, <- app_assoc. reflexivity.
Qed.

End MainLoopFacts.

(** ** Configuration from the environment *)

Section ConfigFacts.

Implicit Types (env : gmap string string).

(** X17.  The model name is never empty: it is the value of
    [DASHSCOPE_MODEL] when that variable is set to a non-empty text, and
    [qwen-plus] when it is unset or empty.  [getModel] of [main.go] and
    [Model] of package [qwen] agree on every environment. *)
Theorem getModel_never_empty env :
  s01_env.getModel env ≠ ""
  ∧ (∀ m, env !! "DASHSCOPE_MODEL" = Some m → m ≠ "" → s01_env.getModel env = m)
  ∧ (env !! "DASHSCOPE_MODEL" = None ∨ env !! "DASHSCOPE_MODEL" = Some "" →
       s01_env.getModel env = "qwen-plus")
  ∧ qwen.Model env = s01_env.getModel env.
Proof.
  unfold s01_env.getModel, qwen.Model, qwen.defaultModel, Getenv.
  split; [|split; [|split]].
  - destruct (env !! "DASHSCOPE_MODEL") as [m|]; unfold default; cbn [from_option id];
      [|done].
    destruct (m =? "")%string eqn:E; [done|]. by apply String.eqb_neq.
  - intros m -> Hm. unfold default. cbn [from_option id].
    apply String.eqb_neq in Hm. by rewrite Hm.
  - by intros [-> | ->].
  - reflexivity.
Qed.

(** X18.  A client is built exactly when [DASHSCOPE_API_KEY] and
    [DASHSCOPE_BASE_URL] are both set to non-empty texts, and it then
    carries these two values.  Otherwise the error names the missing
    variable, the API key first when both are missing.  [newClient] of
    [main.go] and [NewClient] of package [qwen] agree on every
    environment. *)
Theorem newClient_needs_both env :
  (∀ c, s01_env.newClient env = inl c ↔
          Getenv env "DASHSCOPE_API_KEY" ≠ ""
          ∧ Getenv env "DASHSCOPE_BASE_URL" ≠ ""
          ∧ c = {| APIKey := Getenv env "DASHSCOPE_API_KEY";
                   BaseURL := Getenv env "DASHSCOPE_BASE_URL" |})
  ∧ (Getenv env "DASHSCOPE_API_KEY" = "" →
       s01_env.newClient env = inr "DASHSCOPE_API_KEY is not set")
  ∧ (Getenv env "DASHSCOPE_API_KEY" ≠ "" →
     Getenv env "DASHSCOPE_BASE_URL" = "" →
       s01_env.newClient env = inr "DASHSCOPE_BASE_URL is not set")
  ∧ qwen.NewClient env = s01_env.newClient env.
Proof.
  unfold s01_env.newClient, qwen.NewClient.
  split; [|split; [|split]].
  - intros c.
    destruct (Getenv env "DASHSCOPE_API_KEY" =? "")%string eqn:Ek.
    { apply String.eqb_eq in Ek. split; [done|]. by intros [? _]. }
    destruct (Getenv env "DASHSCOPE_BASE_URL" =? "")%string eqn:Eu.
    { apply String.eqb_eq in Eu. split; [done|]. by intros (_ & ? & _). }
    apply String.eqb_neq in Ek, Eu. split.
    + intros H. by simplify_eq.
    + by intros (_ & _ & ->).
  - by intros ->.
  - intros Hk ->. apply String.eqb_neq in Hk. by rewrite Hk.
  - reflexivity.
Qed.

End ConfigFacts.

(** ** What the interactive tool loop never does *)

Section ToolLoopFacts.

Context {RT : Runtime} {L : Type} {LC : LLMClient L}.

Implicit Types (w : World L) (messages : list Message) (tc : ToolCall)
  (command dir : string).

(** X19.  The interactive loop never looks at the name of the requested
    tool: two lists of calls that agree, one by one, on the ids and on the
    argument texts are handled in exactly the same way, whatever names
    they carry.  Every call is run as a bash command. *)
Theorem runToolCalls_ignores_tool_name cwd (calls1 calls2 : list ToolCall)
    messages w :
  tc_ID <$> calls1 = tc_ID <$> calls2 →
  tc_Arguments <$> calls1 = tc_Arguments <$> calls2 →
  s01.runToolCalls cwd calls1 messages w = s01.runToolCalls cwd calls2 messages w.
Proof.
  revert calls2 messages w.
  induction calls1 as [|tc1 calls1 IH]; intros [|tc2 calls2] messages w Hids Hargs;
    try done.
  rewrite !fmap_cons in Hids, Hargs.
  injection Hids as Hid Hids. injection Hargs as Harg Hargs.
  cbn [s01.runToolCalls]. rewrite <- Hid, <- Harg.
  destruct (Unmarshal (tc_Arguments tc1)) as [args|err].
  - destruct (assert_string (args !! "command")) as [command ok].
    unfold mbind, IO_bind.
    destruct (Printf _ w) as [w1 []].
    destruct (s01.runBashIn command cwd w1) as [w2 output].
    destruct (Println _ w2) as [w3 []]. by apply IH.
  - by apply IH.
Qed.

Lemma runBashIn_trace_cases command dir w :
  w_trace (s01.runBashIn command dir w).1 = w_trace w
  ∨ ∃ dir', w_trace (s01.runBashIn command dir w).1 =
              w_trace w ++ [EvSpawn command dir'].
Proof.
  destruct (existsb (Contains command) s01.dangerousPatterns) eqn:Hgate.
  - left. by rewrite (runBashIn_blocked _ _ _ Hgate).
  - right. destruct (CombinedOutput command (s01.cmdDir_of dir w) (w_os w)).2
      as [out err] eqn:Hrun.
    rewrite (runBashIn_allowed _ _ _ _ _ Hgate Hrun). by eexists.
Qed.

(** X20.  The interactive tool loop spawns at most one subprocess per
    requested call: among the events it adds to the trace, the
    subprocesses are never more than the calls. *)
Theorem runToolCalls_spawn_bound cwd toolCalls messages w :
  ∃ events,
    w_trace (s01.runToolCalls cwd toolCalls messages w).1 = w_trace w ++ events
    ∧ (length (filter (λ e, is_spawn e = true) events) ≤ length toolCalls)%nat.
Proof.
  revert messages w. induction toolCalls as [|tc rest IH]; intros messages w.
  - exists []. by rewrite runToolCalls_nil, app_nil_r.
  - destruct (Unmarshal (tc_Arguments tc)) as [args|err] eqn:E.
    + rewrite (runToolCalls_decoded _ _ _ _ _ _ E). cbv zeta.
      match goal with
      | |- context [s01.runToolCalls cwd rest ?m ?w3] =>
          destruct (IH m w3) as (events & -> & Hbound)
      end.
      unfold Println, Printf, emit. cbn [fst w_trace].
      match goal with
      | |- context [s01.runBashIn ?c cwd ?w1] =>
          destruct (runBashIn_trace_cases c cwd w1) as [->|[dir' ->]]
      end; cbn [w_trace]; rewrite <- !app_assoc; eexists;
        (split; [reflexivity|]); cbn [app]; rewrite !filter_cons;
        cbn [is_spawn]; repeat case_decide; try done; cbn [length]; lia.
    + rewrite (runToolCalls_error _ _ _ _ _ _ E).
      destruct (IH (messages ++ [ToolMessage ("error: " +:+ err) (tc_ID tc)]) w)
        as (events & -> & Hbound).
      exists events. split; [done|]. cbn [length]. lia.
Qed.

End ToolLoopFacts.

(** ** The further properties at concrete inputs *)

Module ExtraScenarios.

Import testing.

Lemma Dispatch_known_iff_listed_witness :
  let tools : list (ChatCompletionToolParam * Handler (RT := testHost) errorLLMClient) :=
    [(registry_main.bashToolDef, registry_main.bashHandler)] in
  (∃ def handler,
      (def, handler) ∈ tools ∧ fn_Name def = "bash"
      ∧ Dispatch (RegisterAll New tools) "bash" ∅ = handler ∅)
  ∧ ∀ w, Dispatch (RegisterAll New tools) "python" ∅ w =
           (w, ("", Some "unknown tool: python")).
Proof.
  intros tools. split.
  - apply (proj1 (Dispatch_known_iff_listed (RT := testHost) tools "bash" ∅)).
    change ("bash" ∈ ["bash"]). by apply list_elem_of_singleton.
  - apply (proj2 (Dispatch_known_iff_listed (RT := testHost) tools "python" ∅)).
    change ("python" ∉ ["bash"]). intros H.
    apply list_elem_of_singleton in H. discriminate.
Defined.

Lemma Run_unknown_tool_recovered_witness :
  let w := start (RT := testHost) 0%nat ErrorLLMClient in
  let call := {| tc_ID := "call-1"; tc_Name := "python"; tc_Arguments := "{}" |} in
  loop.runToolCalls (RT := testHost) registry_main.registry [call]
    [UserMessage "run python"] w =
    (w, ([UserMessage "run python";
          ToolMessage "error: unknown tool: python" "call-1"], None)).
Proof.
  intros w call.
  rewrite (Run_unknown_tool_recovered (RT := testHost) registry_main.registry
             call [] [UserMessage "run python"] w ∅ eq_refl eq_refl).
  reflexivity.
Defined.

Lemma Run_bash_command_not_string_witness :
  let w := start (RT := testHost) 0%nat ErrorLLMClient in
  loop.runToolCalls (RT := testHost) registry_main.registry
    [bashCall "call-1" "{}"] [UserMessage "run something"] w =
    (w, ([UserMessage "run something";
          ToolMessage "error: command must be a string" "call-1"], None)).
Proof.
  intros w.
  rewrite (Run_bash_command_not_string (RT := testHost) (bashCall "call-1" "{}") []
             [UserMessage "run something"] w ∅ eq_refl eq_refl).
  - reflexivity.
  - intros s H. vm_compute in H. discriminate.
Defined.

Lemma Run_appends_only_witness :
  let w := start (RT := testHost) 0%nat
             (mock [makeToolCallResponse "call-1" "echo hello";
                    makeTextResponse "The output is: hello"]) in
  let history := [UserMessage "run echo hello"] in
  let returned :=
    [UserMessage "run echo hello";
     {| role := assistant; content := "";
        tool_calls :=
          [bashCall "call-1" ("{" +:+ Quote "command" +:+ ":" +:+ Quote "echo hello" +:+ "}")];
        tool_call_id := "" |};
     ToolMessage ("hello" +:+ newline) "call-1";
     {| role := assistant; content := "The output is: hello"; tool_calls := [];
        tool_call_id := "" |}] in
  (loop.Run (RT := testHost) 5 history registry_main.registry w).2 =
    Returned (returned, None)
  ∧ history `prefix_of` returned.
Proof.
  intros w history returned.
  assert ((loop.Run (RT := testHost) 5 history registry_main.registry w).2 =
            Returned (returned, None)) as Hret by reflexivity.
  split; [exact Hret|].
  exact (proj1 (Run_appends_only (RT := testHost) (LC := mock_Complete)
                  5 history registry_main.registry w returned None Hret)).
Defined.

Lemma Run_error_kinds_witness :
  let w := start (RT := testHost) 0%nat ErrorLLMClient in
  (∃ err, "API call failed: simulated API error" = "API call failed: " +:+ err)
  ∨ (∃ name err, "API call failed: simulated API error" =
                   "failed to parse tool args for " +:+ name +:+ ": " +:+ err).
Proof.
  intros w.
  apply (Run_error_kinds (RT := testHost) (LC := error_Complete) 1
           [UserMessage "trigger error"] registry_main.registry w
           [UserMessage "trigger error"]).
  reflexivity.
Defined.

Lemma runBashIn_runs_allowed_witness :
  let w := start (RT := testHost) 0%nat ErrorLLMClient in
  w_trace (s01.runBashIn (RT := testHost) "echo hello" "" w).1 =
    [EvSpawn "echo hello" "/work"].
Proof.
  intros w.
  assert (∀ pattern before after,
             pattern ∈ s01.dangerousPatterns →
             "echo hello" ≠ before +:+ pattern +:+ after) as Hfree.
  { intros pattern before after Hin Heq.
    assert (Contains "echo hello" pattern = true) as Hc
      by (apply Contains_spec; by exists before, after).
    unfold s01.dangerousPatterns in Hin.
    repeat (apply elem_of_cons in Hin as [->|Hin];
            [vm_compute in Hc; discriminate|]).
    by apply elem_of_nil in Hin. }
  exact (proj2 (runBashIn_runs_allowed (RT := testHost) "echo hello" "" w Hfree)).
Defined.
Lemma runToolCalls_blocked_command_witness :
  let w := start (RT := testHost) 0%nat ErrorLLMClient in
  let call :=
    bashCall "call-danger"
      ("{" +:+ Quote "command" +:+ ":" +:+ Quote "sudo rm -rf /" +:+ "}") in
  let r := s01.runToolCalls (RT := testHost) "" [call]
             [UserMessage "try dangerous command"] w in
  r.2 = [UserMessage "try dangerous command";
         ToolMessage "Error: Dangerous command blocked" "call-danger"]
  ∧ w_os r.1 = 0%nat.
Proof.
  intros w call r. subst r.
  rewrite (runToolCalls_blocked_command (RT := testHost) "" call []
             [UserMessage "try dangerous command"] w (commandArgs "sudo rm -rf /")
             "sudo rm -rf /" "sudo" "" " rm -rf /" eq_refl eq_refl).
  - split; reflexivity.
  - unfold s01.dangerousPatterns. apply list_elem_of_further, list_elem_of_here.
  - reflexivity.
Defined.

Lemma bashHandler_error_iff_not_string_witness :
  let w := start (RT := testHost) 0%nat ErrorLLMClient in
  (registry_main.bashHandler (RT := testHost) (commandArgs "echo hello") w).2.2 = None
  ∧ registry_main.bashHandler (RT := testHost) ∅ w =
      (w, ("", Some "command must be a string"))
  ∧ len (registry_main.bashHandler (RT := testHost) (commandArgs "echo hello") w).2.1
      ≤ 4015.
Proof.
  intros w.
  destruct (bashHandler_error_iff_not_string (RT := testHost)
              (commandArgs "echo hello") w) as (Hiff & _ & Hbound).
  destruct (bashHandler_error_iff_not_string (RT := testHost)
              (∅ : gmap string any) w) as (_ & Hnot & _).
  split; [|split].
  - apply Hiff. by exists "echo hello".
  - apply Hnot. intros command H. vm_compute in H. discriminate.
  - apply (Hbound "echo hello" ("hello" +:+ newline)); reflexivity.
Defined.

Lemma agentLoop_mock_terminates_witness :
  let w := start (RT := testHost) 0%nat
             (mock [makeToolCallResponse "call-1" "echo hello"]) in
  (s01.agentLoop_from (RT := testHost) 2 "system prompt" ""
     [UserMessage "run echo hello"] w).2 ≠ OutOfFuel.
Proof.
  intros w.
  apply (agentLoop_mock_terminates (RT := testHost) 2 "system prompt" ""
           [UserMessage "run echo hello"] w).
  vm_compute. lia.
Defined.

Lemma agentLoop_scripted_session_witness :
  let w := start (RT := testHost) 0%nat
             (mock [makeToolCallResponse "call-1" "echo step1";
                    makeToolCallResponse "call-2" "echo step2";
                    makeTextResponse "All done."]) in
  ∃ h,
    (s01.agentLoop_from (RT := testHost) 5 "system prompt" ""
       [UserMessage "do two steps"] w).2 = Returned h
    ∧ length h = 6%nat.
Proof.
  intros w.
  destruct (agentLoop_scripted_session (RT := testHost)
              [("call-1", "echo step1"); ("call-2", "echo step2")] "All done."
              [] [] 5 "system prompt" "" [UserMessage "do two steps"] w
              eq_refl eq_refl)
    as (h & Hret & Hlen & _).
  - cbn. lia.
  - by exists h.
Defined.

Lemma main_loop_stops_at_quit_witness :
  let w := start (RT := testHost) 0%nat ErrorLLMClient in
  s01_main.main_loop (RT := testHost) 3 "system prompt"
    ["hello"; " exit "; "never read"] [] w =
    s01_main.main_loop (RT := testHost) 3 "system prompt" ["hello"] [] w.
Proof.
  intros w.
  apply (main_loop_stops_at_quit (RT := testHost) 3 "system prompt"
           ["hello"] " exit " ["never read"] [] w).
  reflexivity.
Defined.

Lemma main_loop_index_in_range_witness :
  let w := start (RT := testHost) 0%nat (mock [{| Choices := [] |}]) in
  (s01_main.main_loop (RT := testHost) 3 "system prompt" ["hello"] [] w).2 =
    Panicked "index out of range [0] with length 0"
  ∧ "index out of range [0] with length 0" = "index out of range [0] with length 0".
Proof.
  intros w.
  assert ((s01_main.main_loop (RT := testHost) 3 "system prompt" ["hello"] [] w).2 =
            Panicked "index out of range [0] with length 0") as Hpanic
    by reflexivity.
  split; [exact Hpanic|].
  exact (main_loop_index_in_range (RT := testHost) (LC := mock_Complete)
           3 "system prompt" ["hello"] [] w _ Hpanic).
Defined.

Lemma main_loop_history_witness :
  let w := start (RT := testHost) 0%nat ErrorLLMClient in
  let lines := ["  first "; "second"; "q"; "third"] in
  (s01_main.main_loop (RT := testHost) 3 "system prompt" lines [] w).2 =
    Returned [UserMessage "first"; UserMessage "second"]
  ∧ filter (λ m, role m = user) [UserMessage "first"; UserMessage "second"] =
      [UserMessage "first"; UserMessage "second"].
Proof.
  intros w lines.
  assert ((s01_main.main_loop (RT := testHost) 3 "system prompt" lines [] w).2 =
            Returned [UserMessage "first"; UserMessage "second"]) as Hret
    by reflexivity.
  split; [exact Hret|].
  exact (proj2 (main_loop_history (RT := testHost) (LC := error_Complete)
                  3 "system prompt" lines [] w _ Hret)).
Defined.

Lemma getModel_never_empty_witness :
  s01_env.getModel {[ "DASHSCOPE_MODEL" := "qwen-max" ]} = "qwen-max"
  ∧ s01_env.getModel ∅ = "qwen-plus".
Proof.
  split.
  - apply (proj1 (proj2 (getModel_never_empty {[ "DASHSCOPE_MODEL" := "qwen-max" ]}))
             "qwen-max"); [reflexivity|discriminate].
  - apply (proj1 (proj2 (proj2 (getModel_never_empty ∅)))). by left.
Defined.

Lemma newClient_needs_both_witness :
  let env : gmap string string :=
    {[ "DASHSCOPE_API_KEY" := "sk-test-key";
       "DASHSCOPE_BASE_URL" := "https://dashscope.aliyuncs.com/compatible-mode/v1" ]} in
  s01_env.newClient env =
    inl {| APIKey := "sk-test-key";
           BaseURL := "https://dashscope.aliyuncs.com/compatible-mode/v1" |}
  ∧ s01_env.newClient {[ "DASHSCOPE_BASE_URL" := "https://example.com" ]} =
      inr "DASHSCOPE_API_KEY is not set"
  ∧ s01_env.newClient {[ "DASHSCOPE_API_KEY" := "sk-test" ]} =
      inr "DASHSCOPE_BASE_URL is not set".
Proof.
  intros env. split; [|split].
  - apply (proj1 (newClient_needs_both env)). split; [discriminate|].
    split; [discriminate|reflexivity].
  - apply (proj1 (proj2 (newClient_needs_both
                           {[ "DASHSCOPE_BASE_URL" := "https://example.com" ]}))).
    reflexivity.
  - apply (proj1 (proj2 (proj2 (newClient_needs_both
                                  {[ "DASHSCOPE_API_KEY" := "sk-test" ]}))));
      [discriminate|reflexivity].
Defined.

Lemma runToolCalls_ignores_tool_name_witness :
  let w := start (RT := testHost) 0%nat ErrorLLMClient in
  let arguments := "{" +:+ Quote "command" +:+ ":" +:+ Quote "echo hello" +:+ "}" in
  s01.runToolCalls (RT := testHost) ""
    [{| tc_ID := "call-1"; tc_Name := "python"; tc_Arguments := arguments |}]
    [UserMessage "run echo hello"] w =
  s01.runToolCalls (RT := testHost) "" [bashCall "call-1" arguments]
    [UserMessage "run echo hello"] w.
Proof.
  intros w arguments.
  apply (runToolCalls_ignores_tool_name (RT := testHost) ""); reflexivity.
Defined.

End ExtraScenarios.
